(** * kntp: NTP comparison and recommendation

    A shallow embedding of the two copies of the library that the
    repository carries,

      - [src/kntp/core.py]  (the packaged module, [Module Core]), and
      - [kntp-lib.py]       (the standalone copy,  [Module Legacy]),

    together with the properties of the protocol exchange, the sampling
    pipeline and the ranking algorithm.

    Conventions of the embedding.

      - A Python [int] is a [Z]; [bytes] is a [list byte].
      - A Python [float] is modelled twice.  For the control flow (checks,
        exceptions, counts, the entries that come out) it is the rational it
        denotes ([Q]), and the arithmetic is exact.  For the values that the
        code computes it is an IEEE 754 binary64 number with the rounding
        operations of the kernel's floats: [Module Binary64] holds
        [query_ntp] and [rank_servers] in that arithmetic.
      - A function that can raise returns a [result]: [Ok v] or [Raise e],
        with [e] the class of the exception.
      - The two dictionaries of [collect_stats] are finite maps keyed by the
        server name; a missing key raises [KeyError] as in Python.
      - The network and the wall clock are an oracle ([world]): what the
        k-th call of [query_ntp] observes.  [statistics.pstdev] needs a
        square root, which the rationals do not have: it is a parameter
        ([sqrt]) of the functions that use it. *)

From Stdlib Require Import ZArith QArith Qabs Qround Lia Lqa Bool List.
From Stdlib Require Import Strings.String Strings.Ascii Strings.Byte DecimalString.
From Stdlib Require Import Sorting.Sorted Sorting.Permutation.
From Stdlib Require Import Floats.
From stdpp Require Import base option list strings gmap.

Local Open Scope Z_scope.

(* ===================================================================== *)
(** ** Exceptions and fallible computations *)
(* ===================================================================== *)

(** The exception classes that the code raises, catches or lets through.
    [SocketTimeout] and [SocketGaierror] are subclasses of [OSError],
    [NTPResponseError] is a subclass of [ValueError] (core.py only);
    [OverflowError] is what [int] raises on an infinite float, and
    [AttributeError] what the lookup of a name that a module does not bind
    raises; [KeyboardInterrupt] derives from [BaseException], not
    [Exception]. *)
Inductive exn : Type :=
  | ValueError
  | NTPResponseError
  | RuntimeError
  | SocketTimeout
  | SocketGaierror
  | OSError
  | StructError
  | KeyError
  | StatisticsError
  | TypeError
  | OverflowError
  | AttributeError
  | KeyboardInterrupt.

Definition exn_eqb (a b : exn) : bool :=
  match a, b with
  | ValueError, ValueError | NTPResponseError, NTPResponseError
  | RuntimeError, RuntimeError | SocketTimeout, SocketTimeout
  | SocketGaierror, SocketGaierror | OSError, OSError
  | StructError, StructError | KeyError, KeyError
  | StatisticsError, StatisticsError | TypeError, TypeError
  | OverflowError, OverflowError | AttributeError, AttributeError
  | KeyboardInterrupt, KeyboardInterrupt => true
  | _, _ => false
  end.

(** [isinstance(e, Exception)]. *)
Definition is_Exception (e : exn) : bool :=
  match e with
  | KeyboardInterrupt => false
  | _ => true
  end.

(** [isinstance(e, ValueError)]. *)
Definition is_ValueError (e : exn) : bool :=
  match e with
  | ValueError | NTPResponseError => true
  | _ => false
  end.

Inductive result (A : Type) : Type :=
  | Ok (a : A)
  | Raise (e : exn).
Arguments Ok {A} a.
Arguments Raise {A} e.

Definition bind {A B : Type} (m : result A) (k : A -> result B) : result B :=
  match m with
  | Ok a => k a
  | Raise e => Raise e
  end.

Declare Scope result_scope.
Delimit Scope result_scope with result.
Notation "'do' x <- m ; k" := (bind m (fun x => k))
  (at level 10, x name, m at level 100, k at level 200) : result_scope.
Notation "'check' c 'else' e ; k" := (if c then k else Raise e)
  (at level 10, c at level 100, e at level 100, k at level 200) : result_scope.
Local Open Scope result_scope.

Definition is_ok {A : Type} (r : result A) : bool :=
  match r with Ok _ => true | Raise _ => false end.

(** [for x in l: st = f(x, st)], stopping at the first exception. *)
Fixpoint for_each {A St : Type} (f : A -> St -> result St) (l : list A) (st : St)
  : result St :=
  match l with
  | [] => Ok st
  | x :: l' => do st' <- f x st; for_each f l' st'
  end.

(** [for i in range(i0, i0 + n): st = body(i, st)]. *)
Fixpoint for_range {St : Type} (body : nat -> St -> result St) (i n : nat) (st : St)
  : result St :=
  match n with
  | O => Ok st
  | S n' => do st' <- body i st; for_range body (S i) n' st'
  end.

(* ===================================================================== *)
(** ** Bytes and [struct] *)
(* ===================================================================== *)

Definition byte_val (b : byte) : Z := Z.of_N (Byte.to_N b).

Definition byte_of_Z (z : Z) : byte :=
  match Byte.of_N (Z.to_N (z mod 256)) with
  | Some b => b
  | None => x00
  end.

(** A big-endian unsigned integer read from a run of bytes. *)
Definition be_uint (bs : list byte) : Z :=
  fold_left (fun acc b => acc * 256 + byte_val b) bs 0.

(** [data[i:j]] for [0 <= i <= j]. *)
Definition slice {A : Type} (l : list A) (i j : nat) : list A :=
  firstn (j - i) (skipn i l).

(** The words of a buffer, four bytes each. *)
Fixpoint words (n : nat) (bs : list byte) : list Z :=
  match n with
  | O => []
  | S n' => be_uint (firstn 4 bs) :: words n' (skipn 4 bs)
  end.

(** [struct.unpack("!<n>I", bs)]: [n] big-endian 32-bit words; the buffer
    must hold exactly [4 n] bytes. *)
Definition struct_unpack_I (n : nat) (bs : list byte) : result (list Z) :=
  if (length bs =? 4 * n)%nat then Ok (words n bs) else Raise StructError.

Definition uint32_ok (v : Z) : bool := (0 <=? v) && (v <? 2 ^ 32).

Definition be_bytes4 (v : Z) : list byte :=
  [byte_of_Z (v / 2 ^ 24); byte_of_Z (v / 2 ^ 16); byte_of_Z (v / 2 ^ 8); byte_of_Z v].

(** [struct.pack("!II", a, b)]: out-of-range arguments raise [struct.error]. *)
Definition struct_pack_II (a b : Z) : result (list byte) :=
  check uint32_ok a && uint32_ok b else StructError;
  Ok (be_bytes4 a ++ be_bytes4 b).

(* ===================================================================== *)
(** ** Data model and the code shared by the two copies *)
(* ===================================================================== *)

Definition NTP_PORT : Z := 123.
Definition NTP_DELTA : Z := 2208988800.

Record Sample : Type := mkSample {
  offset_ms : Q;
  delay_ms : Q
}.

Record Stats : Type := mkStats {
  server : string;
  ok : Z;
  fail : Z;
  avg_offset_ms : Q;
  std_offset_ms : Q;
  avg_delay_ms : Q;
  std_delay_ms : Q
}.

(** The grades, ["A"] (best) to ["D"]. *)
Inductive Grade : Type := Grade_A | Grade_B | Grade_C | Grade_D.

(** [Ranked]; the fields it has in common with [Stats] carry the prefix
    [r_] here, the projections of two records sharing one name space. *)
Record Ranked : Type := mkRanked {
  r_server : string;
  r_ok : Z;
  r_fail : Z;
  r_avg_offset_ms : Q;
  r_std_offset_ms : Q;
  r_avg_delay_ms : Q;
  r_std_delay_ms : Q;
  vs_base_ms : Q;
  score : Q;
  r_grade : Grade
}.

(** Comparisons of floats, as booleans. *)
Definition Qleb (x y : Q) : bool := Qle_bool x y.
Definition Qltb (x y : Q) : bool := negb (Qle_bool y x).

(** [int(x)] of a float: truncation towards zero. *)
Definition int_of (x : Q) : Z := Z.quot (Qnum x) (Zpos (Qden x)).

Definition two32 : Q := inject_Z (2 ^ 32).

Definition _system_to_ntp (ts_unix : Q) : Q := (ts_unix + inject_Z NTP_DELTA)%Q.
Definition _ntp_to_system (ts_ntp : Q) : Q := (ts_ntp - inject_Z NTP_DELTA)%Q.

(** What one call of [query_ntp] observes of the outside: whether the socket
    could be set up, the clock when the request is stamped, and what the
    network answers to the packet sent: a datagram and the clock on arrival,
    or the exception that [sendto] or [recvfrom] raises. *)
Inductive net_result : Type :=
  | Recv (data : list byte) (t4 : Q)
  | NetRaise (e : exn).

Record exchange : Type := mkExchange {
  x_open : option exn;
  x_t1 : Q;
  x_net : list byte -> net_result
}.

(** The world: the exchange that the [k]-th call of [query_ntp] meets, for
    the host and the timeout it is called with. *)
Definition world : Type := nat -> string -> Q -> exchange.

(** The request: [bytearray(48)] with [packet[0] = 0x23] and the transmit
    timestamp packed at offset 40. *)
Definition request_packet (ts : list byte) : list byte :=
  firstn 40 (x23 :: repeat x00 47) ++ ts.

(** The originate timestamp of a request stamped at [t1], in exact
    arithmetic.  The pair that the code packs comes out of float
    operations: [Binary64.req_sec_of] and [Binary64.req_frac_of] below. *)
Definition req_sec_of (t1 : Q) : Z := int_of (_system_to_ntp t1).
Definition req_frac_of (t1 : Q) : Z :=
  int_of ((_system_to_ntp t1 - inject_Z (req_sec_of t1)) * two32)%Q.

(** Lines 138-149 of core.py and 127-139 of kntp-lib.py, the same text:
    unpack twelve words, take T2 and T3, and apply the four-timestamp
    equations; here without rounding, in [Binary64.sample_of] below with
    the rounding of each operation. *)
Definition sample_of (data : list byte) (t1 t4 : Q) : result Sample :=
  do u <- struct_unpack_I 12 (firstn 48 data);
  let t2_ntp := (inject_Z (nth 8 u 0%Z) + inject_Z (nth 9 u 0%Z) / two32)%Q in
  let t3_ntp := (inject_Z (nth 10 u 0%Z) + inject_Z (nth 11 u 0%Z) / two32)%Q in
  let t2 := _ntp_to_system t2_ntp in
  let t3 := _ntp_to_system t3_ntp in
  let delay := ((t4 - t1) - (t3 - t2))%Q in
  let offset := (((t2 - t1) + (t3 - t4)) / 2)%Q in
  Ok (mkSample (offset * 1000) (delay * 1000))%Q.

(** The common frame of [query_ntp]: set the socket up, stamp and send the
    request, receive; [after] is what the copy does with the datagram. *)
Definition exchange_with
    (after : list byte -> Z -> Z -> Q -> Q -> result Sample)
    (x : exchange) : result Sample :=
  match x_open x with
  | Some e => Raise e
  | None =>
      let t1 := x_t1 x in
      let req_sec := req_sec_of t1 in
      let req_frac := req_frac_of t1 in
      do ts <- struct_pack_II req_sec req_frac;
      match x_net x (request_packet ts) with
      | NetRaise e => Raise e
      | Recv data t4 => after data req_sec req_frac t1 t4
      end
  end.

(* ===================================================================== *)
(** ** Sampling: the state of [collect_stats] and its loops *)
(* ===================================================================== *)

(** [statistics.mean] and [statistics.pstdev] of the Python standard
    library, by their documented meaning: the sum over the count, and the
    square root of the variance with divisor N; both raise
    [StatisticsError] on an empty sequence. *)
Definition Qsum (xs : list Q) : Q := fold_right Qplus 0%Q xs.

Definition Qlen {T : Type} (xs : list T) : Q := inject_Z (Z.of_nat (length xs)).

Definition mean_val (xs : list Q) : Q := (Qsum xs / Qlen xs)%Q.

Definition pvariance_val (xs : list Q) : Q :=
  (Qsum (map (fun x => (x - mean_val xs) * (x - mean_val xs)) xs) / Qlen xs)%Q.

Definition mean (xs : list Q) : result Q :=
  match xs with
  | [] => Raise StatisticsError
  | _ => Ok (mean_val xs)
  end.

Definition pstdev (sqrt : Q -> Q) (xs : list Q) : result Q :=
  match xs with
  | [] => Raise StatisticsError
  | _ => Ok (sqrt (pvariance_val xs))
  end.

(** [d[k]] on a dictionary. *)
Definition getitem {V : Type} (d : gmap string V) (k : string) : result V :=
  match d !! k with
  | Some v => Ok v
  | None => Raise KeyError
  end.

(** [{s: v for s in servers}]. *)
Definition dict_from_keys {V : Type} (servers : list string) (v : V)
  : gmap string V :=
  fold_left (fun d s => <[s := v]> d) servers ∅.

(** The state of the sampling loops: how many attempts were made, the
    dictionaries [raw] and [fails], and the pauses taken so far (the
    arguments of the calls of [time.sleep]). *)
Record sampling : Type := mkSampling {
  attempts : nat;
  raw : gmap string (list Sample);
  fails : gmap string Z;
  slept : list Q
}.

(** A state without its record of pauses. *)
Definition forget (st : sampling) : sampling :=
  mkSampling (attempts st) (raw st) (fails st) [].

Definition rmap {T U : Type} (f : T -> U) (r : result T) : result U :=
  match r with
  | Ok a => Ok (f a)
  | Raise e => Raise e
  end.

Section Sampling.

(** [sqrt] stands for the square root of [statistics.pstdev]; [query k s]
    is the outcome of the [k]-th attempt, a call [query_ntp(s, timeout)];
    [catches e] says whether the [except] clause of the copy catches [e]. *)
Variable sqrt : Q -> Q.
Variable query : nat -> string -> result Sample.
Variable catches : exn -> bool.
Variable sleep_between : Q.

(** The body of the inner loop:
<<
    try:
        raw[s].append(query_ntp(s, timeout=timeout))
    except <catches>:
        fails[s] += 1
>> *)
Definition attempt (s : string) (st : sampling) : result sampling :=
  let k := attempts st in
  let tried :=
    do l <- getitem (raw st) s;
    do v <- query k s;
    Ok (l ++ [v]) in
  match tried with
  | Ok l' => Ok (mkSampling (S k) (<[s := l']> (raw st)) (fails st) (slept st))
  | Raise e =>
      if catches e then
        do n <- getitem (fails st) s;
        Ok (mkSampling (S k) (raw st) (<[s := n + 1]> (fails st)) (slept st))
      else Raise e
  end.

(** Round [i]:
<<
    for s in servers: ...
    if i != samples - 1 and sleep_between > 0:
        time.sleep(sleep_between)
>> *)
Definition round (servers : list string) (samples : Z) (i : nat) (st : sampling)
  : result sampling :=
  do st' <- for_each attempt servers st;
  if negb (Z.of_nat i =? samples - 1) && Qltb 0 sleep_between
  then Ok (mkSampling (attempts st') (raw st') (fails st')
             (slept st' ++ [sleep_between]))
  else Ok st'.

Definition sample_rounds (servers : list string) (samples : Z)
  : result sampling :=
  for_range (round servers samples) 0 (Z.to_nat samples)
    (mkSampling 0 (dict_from_keys servers []) (dict_from_keys servers 0) []).

(** The [Stats] of one server from its samples and its failure count. *)
Definition stats_of (s : string) (l : list Sample) (fail : Z) : result Stats :=
  let ok := Z.of_nat (length l) in
  let offs := map offset_ms l in
  let dels := map delay_ms l in
  do avg_o <- mean offs;
  do std_o <- (if 1 <? ok then pstdev sqrt offs else Ok 0%Q);
  do avg_d <- mean dels;
  do std_d <- (if 1 <? ok then pstdev sqrt dels else Ok 0%Q);
  Ok (mkStats s ok fail avg_o std_o avg_d std_d).

(** The body of the output loop. *)
Definition emit (st : sampling) (s : string) (out : list Stats)
  : result (list Stats) :=
  do l <- getitem (raw st) s;
  do fail <- getitem (fails st) s;
  if (Z.of_nat (length l) =? 0) then Ok out
  else do x <- stats_of s l fail; Ok (out ++ [x]).

(** Lines 166-200 of core.py and 154-188 of kntp-lib.py, which differ in
    the [except] clause only. *)
Definition sample_and_aggregate (servers : list string) (samples : Z)
  : result (list Stats) :=
  do st <- sample_rounds servers samples;
  for_each (emit st) servers [].

End Sampling.

(* ===================================================================== *)
(** ** Ranking and recommendation: the code shared by the two copies *)
(* ===================================================================== *)

(** [next((x for x in stats if x.server == base), None)]. *)
Definition find_base (stats : list Stats) (base : string) : option Stats :=
  List.find (fun x => String.eqb (server x) base) stats.

(** [ranked.sort(key=lambda x: x.score)]: Python's sort is stable and
    compares the keys with [<]; an insertion sort that moves an entry only
    past the entries whose key is strictly smaller. *)
Fixpoint insert_by_score (x : Ranked) (l : list Ranked) : list Ranked :=
  match l with
  | [] => [x]
  | y :: l' =>
      if Qltb (score y) (score x) then y :: insert_by_score x l'
      else x :: y :: l'
  end.

Definition sort_by_score (l : list Ranked) : list Ranked :=
  fold_right insert_by_score [] l.

Section Ranking.

(** [grade] is the function of that name of the copy. *)
Variable grade : Q -> Grade.
Variable base : string.
Variable w_delay w_jitter : Q.
Variable max_delay_ms : option Q.
Variable allow_base : bool.

(** [max_delay_ms is not None and st.avg_delay_ms >= max_delay_ms]. *)
Definition too_slow (st : Stats) : bool :=
  match max_delay_ms with
  | Some m => Qleb m (avg_delay_ms st)
  | None => false
  end.

(** The body of the loop over [stats]; the score here is the exact sum,
    in [Binary64.rank_one] below the float that the code computes. *)
Definition rank_one (base_stat : Stats) (st : Stats) (ranked : list Ranked)
  : list Ranked :=
  if negb allow_base && String.eqb (server st) base then ranked
  else
    let vs_base := (avg_offset_ms st - avg_offset_ms base_stat)%Q in
    let score :=
      (Qabs vs_base + (w_delay * avg_delay_ms st)
         + (w_jitter * std_offset_ms st))%Q in
    if too_slow st then ranked
    else
      ranked ++
        [mkRanked (server st) (ok st) (fail st) (avg_offset_ms st)
           (std_offset_ms st) (avg_delay_ms st) (std_delay_ms st)
           vs_base score (grade score)].

(** Lines 217-248 of core.py and 210-241 of kntp-lib.py, the same text. *)
Definition rank_from (stats : list Stats) : result (list Ranked) :=
  match find_base stats base with
  | None => Raise RuntimeError
  | Some base_stat =>
      Ok (sort_by_score
            (fold_left (fun ranked st => rank_one base_stat st ranked) stats []))
  end.

End Ranking.

(** [r.ok / total if total > 0 else 0.0] with [total = r.ok + r.fail]. *)
Definition ok_rate_of (r : Ranked) : Q :=
  let total := r_ok r + r_fail r in
  if 0 <? total then (inject_Z (r_ok r) / inject_Z total)%Q else 0%Q.

(** The loop of [recommend], the same text in both files. *)
Fixpoint scan (base : string) (require_ok_rate : Q) (ranked : list Ranked)
  : option Ranked :=
  match ranked with
  | [] => None
  | r :: rest =>
      if String.eqb (r_server r) base then scan base require_ok_rate rest
      else if Qleb require_ok_rate (ok_rate_of r) then Some r
      else scan base require_ok_rate rest
  end.

(* ===================================================================== *)
(** ** core.py *)
(* ===================================================================== *)

Module Core.

(** [grade(score)]. *)
Definition grade (score : Q) : Grade :=
  if Qleb score 5 then Grade_A
  else if Qleb score 10 then Grade_B
  else if Qleb score 20 then Grade_C
  else Grade_D.

(** [_validate_ntp_response(data, req_sec, req_frac)]. *)
Definition _validate_ntp_response (data : list byte) (req_sec req_frac : Z)
  : result unit :=
  check (48 <=? length data)%nat else NTPResponseError;
  let li_vn_mode := byte_val (nth 0 data x00) in
  let leap := Z.land (Z.shiftr li_vn_mode 6) 3 in
  let mode := Z.land li_vn_mode 7 in
  let stratum := byte_val (nth 1 data x00) in
  check (mode =? 4) else NTPResponseError;
  check negb (leap =? 3) else NTPResponseError;
  check negb (stratum =? 0) else NTPResponseError;
  do o <- struct_unpack_I 2 (slice data 24 32);
  let originate_sec := nth 0 o 0 in
  let originate_frac := nth 1 o 0 in
  check (originate_sec =? req_sec) && (originate_frac =? req_frac)
    else NTPResponseError;
  Ok tt.

(** What [query_ntp] does once the datagram is in: validate, then compute. *)
Definition on_response (data : list byte) (req_sec req_frac : Z) (t1 t4 : Q)
  : result Sample :=
  do _ <- _validate_ntp_response data req_sec req_frac;
  sample_of data t1 t4.

Definition query_exchange : exchange -> result Sample :=
  exchange_with on_response.

(** [query_ntp(host, timeout)], as the [k]-th call in world [w]. *)
Definition query_ntp (w : world) (k : nat) (host : string) (timeout : Q)
  : result Sample :=
  query_exchange (w k host timeout).

(** [except (socket.timeout, socket.gaierror, OSError, struct.error,
    NTPResponseError)]. *)
Definition catches (e : exn) : bool :=
  match e with
  | SocketTimeout | SocketGaierror | OSError | StructError
  | NTPResponseError => true
  | _ => false
  end.

(** [collect_stats] over a given [query_ntp] (the tests patch it). *)
Definition collect_stats_with (sqrt : Q -> Q)
    (query : nat -> string -> Q -> result Sample)
    (servers : list string) (samples : Z) (timeout sleep_between : Q)
  : result (list Stats) :=
  check negb (samples <? 1) else ValueError;
  check negb (Qleb timeout 0) else ValueError;
  check negb (Qltb sleep_between 0) else ValueError;
  sample_and_aggregate sqrt (fun k s => query k s timeout) catches
    sleep_between servers samples.

Definition collect_stats (sqrt : Q -> Q) (w : world)
  : list string -> Z -> Q -> Q -> result (list Stats) :=
  collect_stats_with sqrt (query_ntp w).

Definition rank_servers (stats : list Stats) (base : string)
    (w_delay w_jitter : Q) (max_delay_ms : option Q) (allow_base : bool)
  : result (list Ranked) :=
  check negb (Qltb w_delay 0 || Qltb w_jitter 0) else ValueError;
  check negb (match max_delay_ms with
              | Some m => Qleb m 0
              | None => false
              end) else ValueError;
  rank_from grade base w_delay w_jitter max_delay_ms allow_base stats.

Definition recommend (ranked : list Ranked) (base : string)
    (require_ok_rate : Q) : result (option Ranked) :=
  check Qleb 0 require_ok_rate && Qleb require_ok_rate 1 else ValueError;
  Ok (scan base require_ok_rate ranked).

End Core.

(* ===================================================================== *)
(** ** kntp-lib.py *)
(* ===================================================================== *)

Module Legacy.

(** [grade(score)]. *)
Definition grade (score : Q) : Grade :=
  if Qleb score 5 then Grade_A
  else if Qleb score 10 then Grade_B
  else if Qleb score 20 then Grade_C
  else Grade_D.

(** After the receive, kntp-lib.py checks the length only. *)
Definition on_response (data : list byte) (req_sec req_frac : Z) (t1 t4 : Q)
  : result Sample :=
  check (48 <=? length data)%nat else ValueError;
  sample_of data t1 t4.

Definition query_exchange : exchange -> result Sample :=
  exchange_with on_response.

Definition query_ntp (w : world) (k : nat) (host : string) (timeout : Q)
  : result Sample :=
  query_exchange (w k host timeout).

(** [except Exception]. *)
Definition catches (e : exn) : bool := is_Exception e.

Definition collect_stats_with (sqrt : Q -> Q)
    (query : nat -> string -> Q -> result Sample)
    (servers : list string) (samples : Z) (timeout sleep_between : Q)
  : result (list Stats) :=
  check negb (samples <? 1) else ValueError;
  sample_and_aggregate sqrt (fun k s => query k s timeout) catches
    sleep_between servers samples.

Definition collect_stats (sqrt : Q -> Q) (w : world)
  : list string -> Z -> Q -> Q -> result (list Stats) :=
  collect_stats_with sqrt (query_ntp w).

Definition rank_servers (stats : list Stats) (base : string)
    (w_delay w_jitter : Q) (max_delay_ms : option Q) (allow_base : bool)
  : result (list Ranked) :=
  rank_from grade base w_delay w_jitter max_delay_ms allow_base stats.

Definition recommend (ranked : list Ranked) (base : string)
    (require_ok_rate : Q) : result (option Ranked) :=
  Ok (scan base require_ok_rate ranked).

End Legacy.

(* ===================================================================== *)
(** ** core.py: the table, and the script that uses the library *)
(* ===================================================================== *)

(** A Python [str] is a string of characters of one byte here: the widths
    below count bytes, as [len] does on ASCII text. *)

(** ["\n"]. *)
Definition newline : string := String (ascii_of_nat 10) EmptyString.

(** [c * n] for a character [c]. *)
Fixpoint repeat_char (c : ascii) (n : nat) : string :=
  match n with
  | O => EmptyString
  | S n' => String c (repeat_char c n')
  end.

(** The format specifications [<w] and [>w]: padding with spaces up to the
    width, never cutting. *)
Definition ljust (w : nat) (s : string) : string :=
  String.append s (repeat_char " " (w - String.length s)).
Definition rjust (w : nat) (s : string) : string :=
  String.append (repeat_char " " (w - String.length s)) s.

(** [str(z)] of an integer: its decimal digits, after a minus sign when it
    is negative. *)
Definition str_of_int (z : Z) : string := NilZero.string_of_int (Z.to_int z).

Definition grade_str (g : Grade) : string :=
  match g with
  | Grade_A => "A"
  | Grade_B => "B"
  | Grade_C => "C"
  | Grade_D => "D"
  end.

(** [sep.join(l)]. *)
Fixpoint join (sep : string) (l : list string) : string :=
  match l with
  | [] => EmptyString
  | [x] => x
  | x :: rest => String.append x (String.append sep (join sep rest))
  end.

(** [s1 s2 ... sn] of an f-string, its pieces in a list. *)
Definition concat_str (l : list string) : string :=
  fold_right String.append EmptyString l.

Definition table_header : string :=
  concat_str
    [ljust 4 "rank"; " "; ljust 22 "server"; " "; rjust 8 "score"; " ";
     rjust 5 "grade"; " "; rjust 12 "vs_base(ms)"; " "; rjust 10 "delay(ms)"; " ";
     rjust 8 "ok/fail"].

Section Table.

(** [fixed2 x] stands for [format(x, ".2f")], the rendering of a float with
    two decimals. *)
Variable fixed2 : Q -> string.

(** One line of the table, for the entry of rank [idx]. *)
Definition table_row (idx : Z) (item : Ranked) : string :=
  concat_str
    [ljust 4 (str_of_int idx); " "; ljust 22 (r_server item); " ";
     rjust 8 (fixed2 (score item)); " "; rjust 5 (grade_str (r_grade item)); " ";
     rjust 12 (fixed2 (vs_base_ms item)); " ";
     rjust 10 (fixed2 (r_avg_delay_ms item)); " ";
     rjust 2 (str_of_int (r_ok item)); "/"; ljust 5 (str_of_int (r_fail item))].

(** [for idx, item in enumerate(rows, start=idx): lines.append(...)]. *)
Fixpoint table_rows (idx : Z) (rows : list Ranked) : list string :=
  match rows with
  | [] => []
  | item :: rest => table_row idx item :: table_rows (idx + 1) rest
  end.

(** The list [lines] of [format_ranked_table]. *)
Definition table_lines (rows : list Ranked) : list string :=
  table_header :: repeat_char "-" (String.length table_header)
  :: table_rows 1 rows.

(** [format_ranked_table(ranked, top_n=top_n)]. *)
Definition format_ranked_table (ranked : list Ranked) (top_n : option Z)
  : result string :=
  check negb (match top_n with
              | Some n => n <? 1
              | None => false
              end) else ValueError;
  let rows := match top_n with
              | Some n => firstn (Z.to_nat n) ranked
              | None => ranked
              end in
  match rows with
  | [] => Ok "(no ranked results)"%string
  | _ => Ok (join newline (table_lines rows))
  end.

End Table.

(** Whether the integers [z], [z + 1], ..., [z + fuel - 1] all print in at
    most [w] characters. *)
Fixpoint fits_below (w : nat) (fuel : nat) (z : Z) : bool :=
  match fuel with
  | O => true
  | S f => (String.length (str_of_int z) <=? w)%nat && fits_below w f (z + 1)
  end.

(** An entry whose fields fit the columns of the table. *)
Definition fits_columns (fixed2 : Q -> string) (item : Ranked) : Prop :=
  (String.length (r_server item) <= 22)%nat
  /\ (String.length (fixed2 (score item)) <= 8)%nat
  /\ (String.length (fixed2 (vs_base_ms item)) <= 12)%nat
  /\ (String.length (fixed2 (r_avg_delay_ms item)) <= 10)%nat
  /\ 0 <= r_ok item <= 99
  /\ 0 <= r_fail item <= 99999.

Definition DEFAULT_BASE : string := "ntp.kriss.re.kr".

Definition DEFAULT_SERVERS : list string :=
  [ "ntp.kriss.re.kr"; "kr.pool.ntp.org"; "asia.pool.ntp.org"; "pool.ntp.org";
    "time.bora.net"; "time.nuri.net"; "clock.iptime.co.kr";
    "time.google.com"; "time.cloudflare.com"; "time.windows.com";
    "time.apple.com"; "time.facebook.com" ]%string.

(** The names that kntp/__init__.py binds in the package: what it imports
    from [.core], and the submodule [core] itself. *)
Definition kntp_names : list string :=
  [ "DEFAULT_BASE"; "DEFAULT_SERVERS"; "NTPResponseError"; "Ranked"; "Sample";
    "Stats"; "collect_stats"; "grade"; "query_ntp"; "rank_servers";
    "recommend"; "core" ]%string.

(** [kntp.<name>]: the value bound to the name, [AttributeError] when the
    package binds none. *)
Definition kntp_attr {A : Type} (name : string) (v : A) : result A :=
  if existsb (String.eqb name) kntp_names then Ok v else Raise AttributeError.

(** examples/quickstart.py: what it prints, one string for each [print].
    Every function and constant is looked up in the package where the
    script uses it; [query] is what the calls of [query_ntp] inside
    [collect_stats] return. *)
Definition quickstart (fixed2 : Q -> string) (sqrt : Q -> Q)
    (query : nat -> string -> Q -> result Sample)
  : result (list string) :=
  do collect_stats <- kntp_attr "collect_stats" (Core.collect_stats_with sqrt query);
  do servers <- kntp_attr "DEFAULT_SERVERS" DEFAULT_SERVERS;
  do stats <- collect_stats servers 5 2%Q (3 # 10)%Q;
  do rank_servers <- kntp_attr "rank_servers" Core.rank_servers;
  do base <- kntp_attr "DEFAULT_BASE" DEFAULT_BASE;
  do ranked <- rank_servers stats base (2 # 10)%Q (5 # 10)%Q (Some 100%Q) true;
  do recommend <- kntp_attr "recommend" Core.recommend;
  do best <- recommend ranked DEFAULT_BASE (8 # 10)%Q;
  do format_table <- kntp_attr "format_ranked_table" (format_ranked_table fixed2);
  do table <- format_table ranked (Some 5);
  Ok [table;
      String.append newline
        (String.append "Recommended: "
           match best with
           | Some best => r_server best
           | None => "None"%string
           end)].

(* ===================================================================== *)
(** ** The wire format, in the words of the protocol *)
(* ===================================================================== *)

(** Byte [i] of a buffer, as a number. *)
Definition byte_at (data : list byte) (i : nat) : Z := byte_val (nth i data x00).

(** The big-endian 32-bit word that starts at byte [i]. *)
Definition be_word_at (data : list byte) (i : nat) : Z :=
  byte_at data i * 2 ^ 24 + byte_at data (i + 1) * 2 ^ 16
  + byte_at data (i + 2) * 2 ^ 8 + byte_at data (i + 3).

(** Mode: the low three bits of byte 0.  Leap indicator: its top two bits.
    Stratum: byte 1.  Originate timestamp: bytes 24-31. *)
Definition mode_field (data : list byte) : Z := byte_at data 0 mod 8.
Definition leap_field (data : list byte) : Z := byte_at data 0 / 64.
Definition stratum_field (data : list byte) : Z := byte_at data 1.
Definition originate_field (data : list byte) : Z * Z :=
  (be_word_at data 24, be_word_at data 28).

(** The five reasons for which a response is refused. *)
Definition rejected (data : list byte) (sec frac : Z) : Prop :=
  (length data < 48)%nat
  \/ mode_field data <> 4
  \/ leap_field data = 3
  \/ stratum_field data = 0
  \/ originate_field data <> (sec, frac).

(** A 64-bit NTP timestamp at byte [i], as seconds since the Unix epoch:
    seconds plus fraction over 2^32, less 2,208,988,800. *)
Definition unix_time_at (data : list byte) (i : nat) : Q :=
  (inject_Z (be_word_at data i) + inject_Z (be_word_at data (i + 4)) / two32
   - inject_Z 2208988800)%Q.


(* ===================================================================== *)
(** ** A sampling run, in the words of the specification *)
(* ===================================================================== *)

Section Trace.

Variable sqrt : Q -> Q.
Variable query : nat -> string -> result Sample.
Variable catches : exn -> bool.

(** The attempts of a run in the order they are made: [samples] rounds,
    each over the server list in its order. *)
Definition schedule (servers : list string) (samples : nat) : list string :=
  concat (repeat servers samples).

(** The outcomes of the attempts numbered [k], [k + 1], ... of a schedule,
    each with the server it was made to. *)
Fixpoint outcomes (k : nat) (sched : list string)
  : list (string * result Sample) :=
  match sched with
  | [] => []
  | s :: rest => (s, query k s) :: outcomes (S k) rest
  end.

(** The successful samples of server [s], in the order they were taken. *)
Definition successes_of (s : string) (tr : list (string * result Sample))
  : list Sample :=
  flat_map (fun p => match snd p with
                     | Ok v => if String.eqb (fst p) s then [v] else []
                     | Raise _ => []
                     end) tr.

(** An attempt on [s] that failed with an exception the sampler catches. *)
Definition counted_failure (s : string) (p : string * result Sample) : bool :=
  String.eqb (fst p) s
  && match snd p with
     | Ok _ => false
     | Raise e => catches e
     end.

Definition failures_of (s : string) (tr : list (string * result Sample)) : Z :=
  Z.of_nat (length (List.filter (counted_failure s) tr)).

(** The first exception of a run that the sampler does not catch. *)
Fixpoint first_uncaught (tr : list (string * result Sample)) : option exn :=
  match tr with
  | [] => None
  | (_, Ok _) :: rest => first_uncaught rest
  | (_, Raise e) :: rest => if catches e then first_uncaught rest else Some e
  end.

(** The entry of a server: the counts, the arithmetic means, and the
    population standard deviations, 0 when there is exactly one sample. *)
Definition entry_of (s : string) (l : list Sample) (fail : Z) : Stats :=
  let n := Z.of_nat (length l) in
  let offs := map offset_ms l in
  let dels := map delay_ms l in
  {| server := s;
     ok := n;
     fail := fail;
     avg_offset_ms := mean_val offs;
     std_offset_ms := if n =? 1 then 0%Q else sqrt (pvariance_val offs);
     avg_delay_ms := mean_val dels;
     std_delay_ms := if n =? 1 then 0%Q else sqrt (pvariance_val dels) |}.

Definition has_success (tr : list (string * result Sample)) (s : string) : bool :=
  match successes_of s tr with
  | [] => false
  | _ => true
  end.

(** One entry for each server of the list that has a success, in the
    order of the list. *)
Definition expected_stats (servers : list string)
    (tr : list (string * result Sample)) : list Stats :=
  map (fun s => entry_of s (successes_of s tr) (failures_of s tr))
    (List.filter (has_success tr) servers).

End Trace.

(** The pauses of the rounds [i], ..., [i + n - 1]: one of [sleep_between]
    after each round but the last of the run, when [sleep_between > 0]. *)
Definition pauses (samples : Z) (sleep_between : Q) (i n : nat) : list Q :=
  flat_map (fun j =>
              if negb (Z.of_nat j =? samples - 1) && Qltb 0 sleep_between
              then [sleep_between] else [])
    (seq i n).

(** How many times [s] stands in a list of servers. *)
Definition occurrences (s : string) (l : list string) : nat :=
  length (List.filter (fun s' => String.eqb s' s) l).

(* ===================================================================== *)
(** ** Ranking, in the words of the specification *)
(* ===================================================================== *)

(** The weights are not negative and the threshold, when there is one, is
    positive. *)
Definition valid_ranking (w_delay w_jitter : Q) (max_delay_ms : option Q) : Prop :=
  (0 <= w_delay)%Q /\ (0 <= w_jitter)%Q
  /\ match max_delay_ms with
     | Some m => (0 < m)%Q
     | None => True
     end.

(** A candidate: not the baseline when the baseline is left out, and with an
    average delay strictly below the threshold when there is one. *)
Definition is_candidate (base : string) (max_delay_ms : option Q)
    (allow_base : bool) (st : Stats) : bool :=
  (allow_base || negb (String.eqb (server st) base))
  && match max_delay_ms with
     | Some m => Qltb (avg_delay_ms st) m
     | None => true
     end.

(** The ranked entry of a candidate against the baseline entry [b]. *)
Definition ranked_of (grade : Q -> Grade) (w_delay w_jitter : Q) (b st : Stats)
  : Ranked :=
  let vs := (avg_offset_ms st - avg_offset_ms b)%Q in
  let sc := (Qabs vs + w_delay * avg_delay_ms st + w_jitter * std_offset_ms st)%Q in
  {| r_server := server st;
     r_ok := ok st;
     r_fail := fail st;
     r_avg_offset_ms := avg_offset_ms st;
     r_std_offset_ms := std_offset_ms st;
     r_avg_delay_ms := avg_delay_ms st;
     r_std_delay_ms := std_delay_ms st;
     vs_base_ms := vs;
     score := sc;
     r_grade := grade sc |}.

(** Ascending by score. *)
Definition score_le (x y : Ranked) : Prop := (score x <= score y)%Q.

(* ===================================================================== *)
(** ** Recommendation, in the words of the specification *)
(* ===================================================================== *)



(** How many entries of a list carry the server name [s]. *)
Definition entries_for (s : string) (out : list Stats) : nat :=
  length (List.filter (fun x => String.eqb (server x) s) out).

(** The test of the loop of [recommend] on one entry. *)
Definition passes (base : string) (rate : Q) (r : Ranked) : bool :=
  negb (String.eqb (r_server r) base) && Qleb rate (ok_rate_of r).

(* ===================================================================== *)
(** ** The arithmetic of the code: binary64 *)
(* ===================================================================== *)

(** The definitions above compute with rationals.  That is what the control
    flow of the library needs: which check fails, which exception is raised
    or caught, what is counted, which entries are emitted.  It is not what
    the code computes where a value comes out of floating-point operations:
    a Python [float] is an IEEE 754 binary64 number, and each operation on
    floats returns the nearest such number to its exact result, ties to
    even.  [Binary64] is [query_ntp] and [rank_servers] over the floats of
    the kernel ([PrimFloat]), which are these numbers with these
    operations, NaN, the infinities and the two zeros included.  Bytes,
    integers, packets and the validation of a response are as above. *)

Module Binary64.

(** The conversion of an [int] to a [float], which Python applies to the
    [int] operand of a mixed operation: the nearest float, ties to even;
    exact below 2^53.  (From 2^1024 on Python raises [OverflowError]; the
    code converts constants, 32-bit words and the integer part of a float,
    all below.) *)
Definition float_of_int (z : Z) : float :=
  SF2Prim (binary_normalize prec emax z 0 false).

(** [int(x)] of a float: truncation towards zero; [OverflowError] on an
    infinity, [ValueError] on NaN. *)
Definition int_of (x : float) : result Z :=
  match Prim2SF x with
  | S754_zero _ => Ok 0
  | S754_finite s m e =>
      let a := if 0 <=? e then Z.shiftl (Z.pos m) e
               else Z.shiftr (Z.pos m) (- e) in
      Ok (if s then - a else a)
  | S754_infinity _ => Raise OverflowError
  | S754_nan => Raise ValueError
  end.

Record Sample : Type := mkSample {
  offset_ms : float;
  delay_ms : float
}.

Record Stats : Type := mkStats {
  server : string;
  ok : Z;
  fail : Z;
  avg_offset_ms : float;
  std_offset_ms : float;
  avg_delay_ms : float;
  std_delay_ms : float
}.

Record Ranked : Type := mkRanked {
  r_server : string;
  r_ok : Z;
  r_fail : Z;
  r_avg_offset_ms : float;
  r_std_offset_ms : float;
  r_avg_delay_ms : float;
  r_std_delay_ms : float;
  vs_base_ms : float;
  score : float;
  r_grade : Grade
}.

(** [grade(score)], the same text in both files. *)
Definition grade (score : float) : Grade :=
  if (score <=? 5)%float then Grade_A
  else if (score <=? 10)%float then Grade_B
  else if (score <=? 20)%float then Grade_C
  else Grade_D.

Definition _system_to_ntp (ts_unix : float) : float :=
  (ts_unix + float_of_int NTP_DELTA)%float.
Definition _ntp_to_system (ts_ntp : float) : float :=
  (ts_ntp - float_of_int NTP_DELTA)%float.

(** What one call of [query_ntp] observes of the outside, the two readings
    of [time.time()] being floats. *)
Inductive net_result : Type :=
  | Recv (data : list byte) (t4 : float)
  | NetRaise (e : exn).

Record exchange : Type := mkExchange {
  x_open : option exn;
  x_t1 : float;
  x_net : list byte -> net_result
}.

Definition world : Type := nat -> string -> float -> exchange.

(** [req_sec = int(t1_ntp)] and
    [req_frac = int((t1_ntp - req_sec) * (2**32))], with
    [t1_ntp = _system_to_ntp(t1)]. *)
Definition req_sec_of (t1 : float) : result Z := int_of (_system_to_ntp t1).
Definition req_frac_of (t1 : float) (req_sec : Z) : result Z :=
  int_of ((_system_to_ntp t1 - float_of_int req_sec) * float_of_int (2 ^ 32))%float.

(** Lines 138-149 of core.py and 127-139 of kntp-lib.py, the same text. *)
Definition sample_of (data : list byte) (t1 t4 : float) : result Sample :=
  do u <- struct_unpack_I 12 (firstn 48 data);
  let t2_ntp :=
    (float_of_int (nth 8 u 0%Z)
     + float_of_int (nth 9 u 0%Z) / float_of_int (2 ^ 32))%float in
  let t3_ntp :=
    (float_of_int (nth 10 u 0%Z)
     + float_of_int (nth 11 u 0%Z) / float_of_int (2 ^ 32))%float in
  let t2 := _ntp_to_system t2_ntp in
  let t3 := _ntp_to_system t3_ntp in
  let delay := ((t4 - t1) - (t3 - t2))%float in
  let offset := (((t2 - t1) + (t3 - t4)) / 2)%float in
  Ok (mkSample (offset * 1000)%float (delay * 1000)%float).

(** The common frame of [query_ntp]. *)
Definition exchange_with
    (after : list byte -> Z -> Z -> float -> float -> result Sample)
    (x : exchange) : result Sample :=
  match x_open x with
  | Some e => Raise e
  | None =>
      let t1 := x_t1 x in
      do req_sec <- req_sec_of t1;
      do req_frac <- req_frac_of t1 req_sec;
      do ts <- struct_pack_II req_sec req_frac;
      match x_net x (request_packet ts) with
      | NetRaise e => Raise e
      | Recv data t4 => after data req_sec req_frac t1 t4
      end
  end.

(** [_validate_ntp_response] reads bytes and compares integers: it is the
    function of [Core] above. *)
Definition _validate_ntp_response : list byte -> Z -> Z -> result unit :=
  Core._validate_ntp_response.

(** [next((x for x in stats if x.server == base), None)]. *)
Definition find_base (stats : list Stats) (base : string) : option Stats :=
  List.find (fun x => String.eqb (server x) base) stats.

(** [ranked.sort(key=lambda x: x.score)]: the keys are compared with [<]
    on floats.  An insertion sort that moves an entry only past the entries
    whose key is strictly smaller; it is what Python's stable sort returns
    as long as no key is NaN. *)
Fixpoint insert_by_score (x : Ranked) (l : list Ranked) : list Ranked :=
  match l with
  | [] => [x]
  | y :: l' =>
      if (score y <? score x)%float then y :: insert_by_score x l'
      else x :: y :: l'
  end.

Definition sort_by_score (l : list Ranked) : list Ranked :=
  fold_right insert_by_score [] l.

Section RankingLoop.

Variable base : string.
Variable w_delay w_jitter : float.
Variable max_delay_ms : option float.
Variable allow_base : bool.

(** [max_delay_ms is not None and st.avg_delay_ms >= max_delay_ms]. *)
Definition too_slow (st : Stats) : bool :=
  match max_delay_ms with
  | Some m => (m <=? avg_delay_ms st)%float
  | None => false
  end.

(** The body of the loop over [stats]:
<<
    vs_base = st.avg_offset_ms - base_stat.avg_offset_ms
    score = abs(vs_base) + (w_delay * st.avg_delay_ms) + (w_jitter * st.std_offset_ms)
>> *)
Definition rank_one (base_stat : Stats) (st : Stats) (ranked : list Ranked)
  : list Ranked :=
  if negb allow_base && String.eqb (server st) base then ranked
  else
    let vs_base := (avg_offset_ms st - avg_offset_ms base_stat)%float in
    let score :=
      (PrimFloat.abs vs_base + (w_delay * avg_delay_ms st)
         + (w_jitter * std_offset_ms st))%float in
    if too_slow st then ranked
    else
      ranked ++
        [mkRanked (server st) (ok st) (fail st) (avg_offset_ms st)
           (std_offset_ms st) (avg_delay_ms st) (std_delay_ms st)
           vs_base score (grade score)].

(** Lines 217-248 of core.py. *)
Definition rank_from (stats : list Stats) : result (list Ranked) :=
  match find_base stats base with
  | None => Raise RuntimeError
  | Some base_stat =>
      Ok (sort_by_score
            (fold_left (fun ranked st => rank_one base_stat st ranked) stats []))
  end.

End RankingLoop.

Module Core.

Definition on_response (data : list byte) (req_sec req_frac : Z) (t1 t4 : float)
  : result Sample :=
  do _ <- _validate_ntp_response data req_sec req_frac;
  sample_of data t1 t4.

Definition query_exchange : exchange -> result Sample :=
  exchange_with on_response.

(** [query_ntp(host, timeout)] of core.py, as the [k]-th call in world
    [w]. *)
Definition query_ntp (w : world) (k : nat) (host : string) (timeout : float)
  : result Sample :=
  query_exchange (w k host timeout).

(** [rank_servers] of core.py. *)
Definition rank_servers (stats : list Stats) (base : string)
    (w_delay w_jitter : float) (max_delay_ms : option float) (allow_base : bool)
  : result (list Ranked) :=
  check negb ((w_delay <? 0)%float || (w_jitter <? 0)%float) else ValueError;
  check negb (match max_delay_ms with
              | Some m => (m <=? 0)%float
              | None => false
              end) else ValueError;
  rank_from base w_delay w_jitter max_delay_ms allow_base stats.

End Core.

Module Legacy.

(** After the receive, kntp-lib.py checks the length only. *)
Definition on_response (data : list byte) (req_sec req_frac : Z) (t1 t4 : float)
  : result Sample :=
  check (48 <=? length data)%nat else ValueError;
  sample_of data t1 t4.

Definition query_exchange : exchange -> result Sample :=
  exchange_with on_response.

(** [query_ntp(host, timeout)] of kntp-lib.py. *)
Definition query_ntp (w : world) (k : nat) (host : string) (timeout : float)
  : result Sample :=
  query_exchange (w k host timeout).

End Legacy.

(** *** In the words of the specification *)

(** A 64-bit NTP timestamp at byte [i], as seconds since the Unix epoch:
    seconds plus fraction over 2^32, less 2,208,988,800, each operation
    rounded. *)
Definition unix_time_at (data : list byte) (i : nat) : float :=
  (float_of_int (be_word_at data i)
   + float_of_int (be_word_at data (i + 4)) / float_of_int (2 ^ 32)
   - float_of_int 2208988800)%float.

(** The weights are not negative and the threshold, when there is one, is
    positive; none of them is NaN, then. *)
Definition valid_ranking (w_delay w_jitter : float) (max_delay_ms : option float)
  : Prop :=
  (0 <=? w_delay)%float = true /\ (0 <=? w_jitter)%float = true
  /\ match max_delay_ms with
     | Some m => (0 <? m)%float = true
     | None => True
     end.

(** A candidate: not the baseline when the baseline is left out, and with an
    average delay strictly below the threshold when there is one. *)
Definition is_candidate (base : string) (max_delay_ms : option float)
    (allow_base : bool) (st : Stats) : bool :=
  (allow_base || negb (String.eqb (server st) base))
  && match max_delay_ms with
     | Some m => (avg_delay_ms st <? m)%float
     | None => true
     end.

(** The score of an entry against the baseline entry [b]. *)
Definition score_of (w_delay w_jitter : float) (b st : Stats) : float :=
  (PrimFloat.abs (avg_offset_ms st - avg_offset_ms b)
   + w_delay * avg_delay_ms st + w_jitter * std_offset_ms st)%float.

(** The ranked entry of a candidate against the baseline entry [b]. *)
Definition ranked_of (w_delay w_jitter : float) (b st : Stats) : Ranked :=
  {| r_server := server st;
     r_ok := ok st;
     r_fail := fail st;
     r_avg_offset_ms := avg_offset_ms st;
     r_std_offset_ms := std_offset_ms st;
     r_avg_delay_ms := avg_delay_ms st;
     r_std_delay_ms := std_delay_ms st;
     vs_base_ms := (avg_offset_ms st - avg_offset_ms b)%float;
     score := score_of w_delay w_jitter b st;
     r_grade := grade (score_of w_delay w_jitter b st) |}.

(** An entry whose average delay and whose score against [b] are numbers. *)
Definition numeric (w_delay w_jitter : float) (b st : Stats) : Prop :=
  is_nan (avg_delay_ms st) = false
  /\ is_nan (score_of w_delay w_jitter b st) = false.

(** The entries of a list whose score equals [q], in their order. *)
Definition with_score (q : float) (l : list Ranked) : list Ranked :=
  List.filter (fun r => (score r =? q)%float) l.

(** Ascending by score. *)
Definition score_le (x y : Ranked) : Prop := (score x <=? score y)%float = true.

End Binary64.

(* ===================================================================== *)
(** ** A concrete world, for the examples *)
(* ===================================================================== *)

(** A well-behaved server: mode 4, stratum 2, the client's transmit
    timestamp echoed as originate timestamp, and fixed receive and transmit
    timestamps; the datagram arrives at [t4]. *)
Definition echo_reply (packet : list byte) : list byte :=
  [x24; x02] ++ repeat x00 22
  ++ slice packet 40 48
  ++ be_bytes4 3908988801 ++ be_bytes4 0
  ++ be_bytes4 3908988801 ++ be_bytes4 (2 ^ 31).

Definition echo_server (t4 : Q) (packet : list byte) : net_result :=
  Recv (echo_reply packet) t4.

(** The same reply with byte 0 set to 0x23: client mode (3), as a request
    has it; nothing else is wrong with it. *)
Definition client_mode_reply (packet : list byte) : list byte :=
  x23 :: skipn 1 (echo_reply packet).

(** Half past 1,700,000,000 seconds of the Unix epoch. *)
Definition noon : Q := (3400000001 # 2)%Q.

Definition echo_world : world :=
  fun _ _ _ => mkExchange None noon (echo_server (1700000002 # 1)).

Definition client_mode_world : world :=
  fun _ _ _ =>
    mkExchange None noon (fun packet => Recv (client_mode_reply packet) (1700000002 # 1)).

(** A square root for the examples: the root rounded down to a millionth. *)
Definition sqrt_micro (q : Q) : Q :=
  (inject_Z (Z.sqrt (Qnum q * 10 ^ 12 / Zpos (Qden q))) / inject_Z (10 ^ 6))%Q.

(** Two rounds over three servers: ["a"] answers twice, ["b"] times out and
    then sends a bad reply, ["c"] answers once and then is unreachable. *)
Definition demo_servers : list string := ["a"; "b"; "c"]%string.

Definition demo_query (k : nat) (s : string) (timeout : Q) : result Sample :=
  match k with
  | 0%nat => Ok (mkSample 1 20)
  | 1%nat => Raise SocketTimeout
  | 2%nat => Ok (mkSample (-2) 30)
  | 3%nat => Ok (mkSample 3 24)
  | 4%nat => Raise NTPResponseError
  | _ => Raise OSError
  end.

Definition demo_stats : list Stats :=
  Eval vm_compute in
    match Core.collect_stats_with sqrt_micro demo_query demo_servers 2 2 (1 # 2) with
    | Ok out => out
    | Raise _ => []
    end.

(** The statistics of the ranking test of the repository. *)
Definition test_stats : list Stats :=
  [ mkStats "base" 5 0 0 (2 # 10) 10 1;
    mkStats "fast" 5 0 1 (1 # 10) 5 1;
    mkStats "slow" 5 0 (5 # 10) (1 # 10) 200 1 ]%Q.

(** The ranked list of the recommendation test of the repository. *)
Definition test_ranked : list Ranked :=
  [ mkRanked "base" 5 0 0 0 1 0 0 0 Grade_A;
    mkRanked "low-ok" 1 4 1 0 1 0 1 1 Grade_A;
    mkRanked "good" 4 1 2 0 1 0 2 2 Grade_A ]%Q.

(** One good sample, then an exception that is no transport or protocol
    failure. *)
Definition faulty_query (k : nat) (s : string) (timeout : Q) : result Sample :=
  match k with
  | 0%nat => Ok (mkSample 1 2)
  | _ => Raise RuntimeError
  end.

(** The reply in client mode to the request stamped at [noon]. *)
Definition client_mode_data : list byte :=
  client_mode_reply
    (request_packet (be_bytes4 (req_sec_of noon) ++ be_bytes4 (req_frac_of noon))).

(** The server, the successes and the failures of each entry. *)
Definition summary (r : result (list Stats)) : result (list (string * Z * Z)) :=
  do out <- r; Ok (map (fun x => (server x, ok x, fail x)) out).

(** Every attempt succeeds. *)
Definition always_ok (k : nat) (s : string) (timeout : Q) : result Sample :=
  Ok (mkSample 1 2).

(** *** Examples in binary64 *)

#[local] Set Warnings "-inexact-float".

(** A clock reading of 1,700,000,000 seconds and three steps of 2^-22, the
    spacing of the floats there.  Its NTP time is no float (the spacing is
    2^-21 from 2^31 on): the sum rounds up, and the fraction packed into the
    request is 4096, not 3072. *)
Definition b64_t1 : float := (1700000000 + 3 * 0x1p-22)%float.

(** The server of [echo_reply], whose datagram arrives at 1,700,000,002. *)
Definition b64_echo_world : Binary64.world :=
  fun _ _ _ =>
    Binary64.mkExchange None b64_t1
      (fun packet => Binary64.Recv (echo_reply packet) 1700000002%float).

(** The request stamped at [b64_t1], and the replies to it. *)
Definition b64_request : list byte :=
  request_packet (be_bytes4 3908988800 ++ be_bytes4 4096).
Definition b64_echo_data : list byte := echo_reply b64_request.

(** The same clock, and a server that answers in client mode (mode 3). *)
Definition b64_client_mode_world : Binary64.world :=
  fun _ _ _ =>
    Binary64.mkExchange None b64_t1
      (fun packet => Binary64.Recv (client_mode_reply packet) 1700000002%float).

(** The statistics of the ranking test of the repository, and an entry
    whose score, 0.2 + 0.2 * 24.0, is the float just above 5. *)
Definition b64_test_stats : list Binary64.Stats :=
  [ Binary64.mkStats "base" 5 0 0 0.2 10 1;
    Binary64.mkStats "fast" 5 0 1 0.1 5 1;
    Binary64.mkStats "slow" 5 0 0.5 0.1 200 1;
    Binary64.mkStats "edge" 5 0 0.2 0 24 1 ]%float.
(* ===================================================================== *)
(** ** Lemmas on bytes and words *)
(* ===================================================================== *)

Lemma byte_val_range (b : byte) : 0 <= byte_val b < 256.
Proof.
  unfold byte_val. pose proof (Byte.to_N_bounded b). lia.
Qed.

Lemma skipn_nth_cons (data : list byte) (i : nat) :
  (i < length data)%nat ->
  skipn i data = nth i data x00 :: skipn (S i) data.
Proof.
  revert i. induction data as [|b data IH]; intros i Hi; simpl in Hi.
  - lia.
  - destruct i as [|i]; [reflexivity|].
    simpl. apply IH. lia.
Qed.

Lemma be_uint_four (b0 b1 b2 b3 : byte) :
  be_uint [b0; b1; b2; b3]
  = byte_val b0 * 2 ^ 24 + byte_val b1 * 2 ^ 16 + byte_val b2 * 2 ^ 8 + byte_val b3.
Proof. unfold be_uint. simpl. lia. Qed.

Lemma be_uint_at (data : list byte) (i : nat) :
  (i + 4 <= length data)%nat ->
  be_uint (firstn 4 (skipn i data)) = be_word_at data i.
Proof.
  intros Hlen.
  rewrite (skipn_nth_cons data i) by lia.
  rewrite (skipn_nth_cons data (S i)) by lia.
  rewrite (skipn_nth_cons data (S (S i))) by lia.
  rewrite (skipn_nth_cons data (S (S (S i)))) by lia.
  cbn [firstn]. rewrite be_uint_four. unfold be_word_at, byte_at.
  replace (i + 1)%nat with (S i) by lia.
  replace (i + 2)%nat with (S (S i)) by lia.
  replace (i + 3)%nat with (S (S (S i))) by lia.
  reflexivity.
Qed.

Lemma words_nth (n k : nat) (bs : list byte) :
  (k < n)%nat ->
  nth k (words n bs) 0 = be_uint (firstn 4 (skipn (4 * k) bs)).
Proof.
  revert k bs. induction n as [|n IH]; intros k bs Hk; [lia|].
  destruct k as [|k]; [reflexivity|].
  cbn [words nth]. rewrite IH by lia.
  rewrite skipn_skipn. do 3 f_equal. lia.
Qed.

Lemma words_length (n : nat) (bs : list byte) : length (words n bs) = n.
Proof.
  revert bs. induction n as [|n IH]; intros bs; simpl; [reflexivity|].
  now rewrite IH.
Qed.

(** A word of the unpacked prefix is the word at its offset in the buffer. *)
Lemma words_prefix_nth (m k : nat) (data : list byte) :
  (4 * k + 4 <= m)%nat -> (m <= length data)%nat ->
  nth k (words (m / 4) (firstn m data)) 0 = be_word_at data (4 * k).
Proof.
  intros Hk Hm.
  rewrite words_nth.
  - rewrite skipn_firstn_comm, firstn_firstn.
    replace (Nat.min 4 (m - 4 * k)) with 4%nat by lia.
    apply be_uint_at. lia.
  - assert (k + 1 <= m / 4)%nat by (apply Nat.div_le_lower_bound; lia). lia.
Qed.

Lemma slice_words (data : list byte) (i : nat) :
  (i + 8 <= length data)%nat ->
  struct_unpack_I 2 (slice data i (i + 8))
  = Ok [be_word_at data i; be_word_at data (i + 4)].
Proof.
  intros Hlen. unfold struct_unpack_I, slice.
  replace (i + 8 - i)%nat with 8%nat by lia.
  rewrite length_firstn, length_skipn.
  replace (Nat.min 8 (length data - i)) with 8%nat by lia.
  cbn [Nat.eqb Nat.mul Nat.add words].
  rewrite firstn_firstn. cbn [Nat.min].
  rewrite skipn_firstn_comm. cbn [Nat.sub].
  rewrite skipn_skipn, firstn_firstn. cbn [Nat.min].
  rewrite be_uint_at by lia.
  replace (4 + i)%nat with (i + 4)%nat by lia.
  rewrite be_uint_at by lia. reflexivity.
Qed.

Lemma land_7_mod (z : Z) : Z.land z 7 = z mod 8.
Proof. change 7 with (Z.ones 3). rewrite Z.land_ones by lia. reflexivity. Qed.

Lemma leap_bits (z : Z) :
  0 <= z < 256 -> Z.land (Z.shiftr z 6) 3 = z / 64.
Proof.
  intros Hz. change 3 with (Z.ones 2). rewrite Z.land_ones by lia.
  rewrite Z.shiftr_div_pow2 by lia. change (2 ^ 6) with 64. change (2 ^ 2) with 4.
  apply Z.mod_small. split.
  - apply Z.div_pos; lia.
  - apply Z.div_lt_upper_bound; lia.
Qed.

(* ===================================================================== *)
(** ** Response validation (core.py) *)
(* ===================================================================== *)

(** The validator, read field by field. *)
Lemma validate_unfold (data : list byte) (sec frac : Z) :
  Core._validate_ntp_response data sec frac
  = if (48 <=? length data)%nat
    then if (mode_field data =? 4)
              && negb (leap_field data =? 3)
              && negb (stratum_field data =? 0)
              && ((be_word_at data 24 =? sec) && (be_word_at data 28 =? frac))
         then Ok tt else Raise NTPResponseError
    else Raise NTPResponseError.
Proof.
  unfold Core._validate_ntp_response.
  destruct (Nat.leb_spec 48 (length data)) as [Hlen|Hlen]; [|reflexivity].
  change (slice data 24 32) with (slice data 24 (24 + 8)).
  rewrite slice_words by lia.
  rewrite land_7_mod, leap_bits by apply byte_val_range.
  fold (byte_at data 0). fold (byte_at data 1).
  fold (mode_field data) (leap_field data) (stratum_field data).
  change (24 + 4)%nat with 28%nat.
  cbn [bind nth].
  destruct (mode_field data =? 4); [|reflexivity].
  destruct (leap_field data =? 3); [reflexivity|].
  destruct (stratum_field data =? 0); [reflexivity|].
  reflexivity.
Qed.

(** Validation has two outcomes: acceptance, or [NTPResponseError]. *)
Lemma validate_outcomes (data : list byte) (sec frac : Z) :
  Core._validate_ntp_response data sec frac = Ok tt
  \/ Core._validate_ntp_response data sec frac = Raise NTPResponseError.
Proof.
  rewrite validate_unfold.
  destruct (48 <=? length data)%nat; [|now right].
  match goal with |- context [if ?c then _ else _] => destruct c end; auto.
Qed.

(** A response is refused, with [NTPResponseError], exactly when it is too
    short, or its mode is not 4, or its leap indicator is 3, or its stratum
    is 0, or its originate timestamp is not the one sent. *)
Lemma validate_rejects_iff (data : list byte) (sec frac : Z) :
  Core._validate_ntp_response data sec frac = Raise NTPResponseError
  <-> rejected data sec frac.
Proof.
  rewrite validate_unfold. unfold rejected, originate_field.
  destruct (Nat.leb_spec 48 (length data)) as [Hlen|Hlen].
  2: { split; auto. }
  destruct (Z.eqb_spec (mode_field data) 4) as [Hm|Hm]; cbn [andb].
  2: { split; auto. }
  destruct (Z.eqb_spec (leap_field data) 3) as [Hl|Hl]; cbn [negb andb].
  { split; auto. }
  destruct (Z.eqb_spec (stratum_field data) 0) as [Hs|Hs]; cbn [negb andb].
  { split; auto. }
  destruct (Z.eqb_spec (be_word_at data 24) sec) as [Ho|Ho]; cbn [andb].
  2: { split; [intros _|reflexivity]. do 4 right. congruence. }
  destruct (Z.eqb_spec (be_word_at data 28) frac) as [Hf|Hf].
  2: { split; [intros _|reflexivity]. do 4 right. congruence. }
  split; [discriminate|].
  intros [H|[H|[H|[H|H]]]]; try lia; congruence.
Qed.

(** In [query_ntp] the validation comes first: a refused response yields no
    sample, whatever the timestamps. *)
Lemma core_on_response_rejected (data : list byte) (sec frac : Z) (t1 t4 : Q) :
  rejected data sec frac ->
  Core.on_response data sec frac t1 t4 = Raise NTPResponseError.
Proof.
  intros H. apply validate_rejects_iff in H.
  unfold Core.on_response. rewrite H. reflexivity.
Qed.

(* ===================================================================== *)
(** ** The four-timestamp equations *)
(* ===================================================================== *)

(** The computation of the sample in the arithmetic of the code: the
    four-timestamp equations over the timestamps at bytes 32-39 and 40-47,
    every operation rounded. *)
Lemma b64_sample_of_equations (data : list byte) (t1 t4 : float) :
  (48 <= length data)%nat ->
  Binary64.sample_of data t1 t4
  = Ok {| Binary64.offset_ms :=
            (((Binary64.unix_time_at data 32 - t1)
              + (Binary64.unix_time_at data 40 - t4)) / 2 * 1000)%float;
          Binary64.delay_ms :=
            (((t4 - t1)
              - (Binary64.unix_time_at data 40 - Binary64.unix_time_at data 32))
             * 1000)%float |}.
Proof.
  intros Hlen. unfold Binary64.sample_of, struct_unpack_I.
  rewrite length_firstn. replace (Nat.min 48 (length data)) with 48%nat by lia.
  cbn [Nat.eqb Nat.mul Nat.add bind].
  change 12%nat with (48 / 4)%nat.
  rewrite (words_prefix_nth 48 8), (words_prefix_nth 48 9),
    (words_prefix_nth 48 10), (words_prefix_nth 48 11) by lia.
  reflexivity.
Qed.

Lemma not_rejected_length (data : list byte) (sec frac : Z) :
  ~ rejected data sec frac -> (48 <= length data)%nat.
Proof.
  intros H. destruct (Nat.le_gt_cases 48 (length data)) as [|Hlt]; [assumption|].
  exfalso. apply H. left. exact Hlt.
Qed.

Lemma not_rejected_validates (data : list byte) (sec frac : Z) :
  ~ rejected data sec frac ->
  Core._validate_ntp_response data sec frac = Ok tt.
Proof.
  intros H. destruct (validate_outcomes data sec frac) as [E|E]; [exact E|].
  apply validate_rejects_iff in E. contradiction.
Qed.

(** C2.  In the arithmetic of the code (binary64, every operation rounded
    to nearest), a query stamped at T1 whose response arrives at T4 and
    passes the validation returns the sample with
    delay_ms = ((T4 - T1) - (T3 - T2)) * 1000 and
    offset_ms = (((T2 - T1) + (T3 - T4)) / 2) * 1000,
    where T2 and T3 are the timestamps at bytes 32-39 and 40-47 of the
    response: seconds + fraction / 2^32 from two big-endian words, less
    2,208,988,800.  The originate timestamp that the response must echo is
    the pair that the code packs: the integer part of T1 + 2,208,988,800
    as a float, and the integer part of 2^32 times the rest. *)
Theorem query_ntp_four_timestamps
    (w : Binary64.world) (k : nat) (host : string) (timeout : float)
    (req_sec req_frac : Z) (ts data : list byte) (T4 : float) :
  let x := w k host timeout in
  let T1 := Binary64.x_t1 x in
  let T2 := Binary64.unix_time_at data 32 in
  let T3 := Binary64.unix_time_at data 40 in
  Binary64.x_open x = None ->
  Binary64.req_sec_of T1 = Ok req_sec ->
  Binary64.req_frac_of T1 req_sec = Ok req_frac ->
  struct_pack_II req_sec req_frac = Ok ts ->
  Binary64.x_net x (request_packet ts) = Binary64.Recv data T4 ->
  ~ rejected data req_sec req_frac ->
  Binary64.Core.query_ntp w k host timeout
  = Ok {| Binary64.offset_ms := (((T2 - T1) + (T3 - T4)) / 2 * 1000)%float;
          Binary64.delay_ms := (((T4 - T1) - (T3 - T2)) * 1000)%float |}.
Proof.
  intros x T1 T2 T3 Hopen Hsec Hfrac Hpack Hnet Hvalid.
  unfold Binary64.Core.query_ntp, Binary64.Core.query_exchange,
    Binary64.exchange_with.
  fold x. rewrite Hopen. fold T1. rewrite Hsec. cbn [bind].
  rewrite Hfrac. cbn [bind]. rewrite Hpack. cbn [bind].
  rewrite Hnet. unfold Binary64.Core.on_response, Binary64._validate_ntp_response.
  rewrite (not_rejected_validates _ _ _ Hvalid). cbn [bind].
  apply b64_sample_of_equations.
  exact (not_rejected_length _ _ _ Hvalid).
Qed.

Lemma query_ntp_four_timestamps_witness :
  Binary64.req_sec_of b64_t1 = Ok 3908988800
  /\ Binary64.req_frac_of b64_t1 3908988800 = Ok 4096
  /\ Binary64.Core.query_ntp b64_echo_world 0 "time.example" 2
     = Ok {| Binary64.offset_ms :=
               (((Binary64.unix_time_at b64_echo_data 32 - b64_t1)
                 + (Binary64.unix_time_at b64_echo_data 40 - 1700000002)) / 2
                * 1000)%float;
             Binary64.delay_ms :=
               (((1700000002 - b64_t1)
                 - (Binary64.unix_time_at b64_echo_data 40
                    - Binary64.unix_time_at b64_echo_data 32)) * 1000)%float |}.
Proof.
  split; [vm_compute; reflexivity|]. split; [vm_compute; reflexivity|].
  apply (query_ntp_four_timestamps b64_echo_world 0 "time.example" 2
           3908988800 4096 (be_bytes4 3908988800 ++ be_bytes4 4096)
           b64_echo_data 1700000002).
  - reflexivity.
  - vm_compute. reflexivity.
  - vm_compute. reflexivity.
  - reflexivity.
  - reflexivity.
  - intros [H|[H|[H|[H|H]]]].
    + vm_compute in H. lia.
    + apply H. reflexivity.
    + vm_compute in H. discriminate H.
    + vm_compute in H. discriminate H.
    + apply H. reflexivity.
Defined.

(* ===================================================================== *)
(** ** The sampling loops *)
(* ===================================================================== *)

Lemma for_each_app {T St : Type} (f : T -> St -> result St) (l1 l2 : list T) (st : St) :
  for_each f (l1 ++ l2) st = do st' <- for_each f l1 st; for_each f l2 st'.
Proof.
  revert st. induction l1 as [|x l1 IH]; intros st; [reflexivity|].
  cbn [for_each app]. destruct (f x st) as [st1|e]; cbn [bind]; [apply IH|reflexivity].
Qed.

Lemma dict_from_keys_fold {V : Type} (servers : list string) (v : V) (s : string) :
  forall d : gmap string V,
    fold_left (fun d s => <[s := v]> d) servers d !! s
    = if existsb (String.eqb s) servers then Some v else d !! s.
Proof.
  induction servers as [|x l IH]; intros d; [reflexivity|].
  cbn [fold_left existsb]. rewrite IH.
  destruct (existsb (String.eqb s) l); [now rewrite orb_true_r|].
  rewrite orb_false_r. destruct (String.eqb_spec s x) as [->|Hne].
  - apply lookup_insert_eq.
  - apply lookup_insert_ne. congruence.
Qed.

Lemma dict_from_keys_lookup {V : Type} (servers : list string) (v : V) (s : string) :
  In s servers -> dict_from_keys servers v !! s = Some v.
Proof.
  intros Hin. unfold dict_from_keys. rewrite dict_from_keys_fold.
  replace (existsb (String.eqb s) servers) with true; [reflexivity|].
  symmetry. apply existsb_exists. exists s. split; [exact Hin|apply String.eqb_refl].
Qed.

Section SamplingProofs.

Variable sqrt : Q -> Q.
Variable query : nat -> string -> result Sample.
Variable catches : exn -> bool.
Variable sleep_between : Q.

Lemma in_schedule (servers : list string) (n : nat) (s : string) :
  In s (schedule servers n) -> In s servers.
Proof.
  unfold schedule. induction n as [|n IH]; cbn [repeat concat]; [intros []|].
  rewrite in_app_iff. intros [H|H]; auto.
Qed.

Lemma successes_ok (s s' : string) (v : Sample) tr :
  successes_of s ((s', Ok v) :: tr)
  = (if String.eqb s' s then [v] else []) ++ successes_of s tr.
Proof. reflexivity. Qed.

Lemma successes_raise (s s' : string) (e : exn) tr :
  successes_of s ((s', Raise e) :: tr) = successes_of s tr.
Proof. reflexivity. Qed.

Lemma failures_ok (s s' : string) (v : Sample) tr :
  failures_of catches s ((s', Ok v) :: tr) = failures_of catches s tr.
Proof.
  unfold failures_of. cbn [List.filter]. unfold counted_failure at 1.
  cbn [fst snd]. now rewrite andb_false_r.
Qed.

Lemma failures_raise (s s' : string) (e : exn) tr :
  failures_of catches s ((s', Raise e) :: tr)
  = (if String.eqb s' s && catches e then 1 else 0) + failures_of catches s tr.
Proof.
  unfold failures_of. cbn [List.filter]. unfold counted_failure at 1.
  cbn [fst snd]. destruct (String.eqb s' s && catches e); cbn [length]; lia.
Qed.

(** What a run of attempts does to the state: it stops at the first
    exception that is not caught; otherwise each server's list has grown
    by its successes and each counter by its caught failures. *)
Lemma for_each_attempt (sched : list string) :
  forall st : sampling,
    (forall s, In s sched -> is_Some (raw st !! s) /\ is_Some (fails st !! s)) ->
    match first_uncaught catches (outcomes query (attempts st) sched) with
    | Some e => for_each (attempt query catches) sched st = Raise e
    | None =>
        exists st',
          for_each (attempt query catches) sched st = Ok st'
          /\ (forall s, raw st' !! s
                        = (fun l => l ++ successes_of s (outcomes query (attempts st) sched))
                            <$> raw st !! s)
          /\ (forall s, fails st' !! s
                        = (fun n => n + failures_of catches s (outcomes query (attempts st) sched))
                            <$> fails st !! s)
    end.
Proof.
  induction sched as [|s rest IH]; intros st Hdom.
  - cbn. exists st. split; [reflexivity|]. split; intros s.
    + destruct (raw st !! s); cbn; [now rewrite app_nil_r|reflexivity].
    + destruct (fails st !! s); cbn; [f_equal; unfold failures_of; cbn; lia|reflexivity].
  - destruct (Hdom s (or_introl eq_refl)) as [[l Hl] [n Hn]].
    cbn [outcomes first_uncaught for_each].
    unfold attempt at 1 3. unfold getitem. rewrite Hl. cbn [bind].
    destruct (query (attempts st) s) as [v|e] eqn:Hq; cbn [bind].
    + set (st1 := mkSampling (S (attempts st)) (<[s := l ++ [v]]> (raw st)) (fails st)
                  (slept st)).
      specialize (IH st1).
      assert (Hdom1 : forall s0, In s0 rest ->
                is_Some (raw st1 !! s0) /\ is_Some (fails st1 !! s0)).
      { intros s0 H0. destruct (Hdom s0 (or_intror H0)) as [Hr Hf].
        split; [|exact Hf]. cbn. rewrite lookup_insert.
        destruct (decide (s = s0)); [eauto|exact Hr]. }
      specialize (IH Hdom1). cbn [attempts st1] in IH.
      destruct (first_uncaught catches (outcomes query (S (attempts st)) rest));
        [exact IH|].
      destruct IH as (st' & Hrun & Hraw & Hfails).
      exists st'. split; [exact Hrun|]. split; intros s0.
      * rewrite Hraw, successes_ok. cbn [raw st1].
        rewrite lookup_insert. destruct (decide (s = s0)) as [<-|Hne].
        -- rewrite Hl, String.eqb_refl. cbn. now rewrite <- app_assoc.
        -- apply String.eqb_neq in Hne. rewrite Hne. reflexivity.
      * rewrite Hfails, failures_ok. reflexivity.
    + destruct (catches e) eqn:Hc; [|reflexivity].
      rewrite Hn. cbn [bind].
      set (st1 := mkSampling (S (attempts st)) (raw st) (<[s := n + 1]> (fails st))
                  (slept st)).
      specialize (IH st1).
      assert (Hdom1 : forall s0, In s0 rest ->
                is_Some (raw st1 !! s0) /\ is_Some (fails st1 !! s0)).
      { intros s0 H0. destruct (Hdom s0 (or_intror H0)) as [Hr Hf].
        split; [exact Hr|]. cbn. rewrite lookup_insert.
        destruct (decide (s = s0)); [eauto|exact Hf]. }
      specialize (IH Hdom1). cbn [attempts st1] in IH.
      destruct (first_uncaught catches (outcomes query (S (attempts st)) rest));
        [exact IH|].
      destruct IH as (st' & Hrun & Hraw & Hfails).
      exists st'. split; [exact Hrun|]. split; intros s0.
      * rewrite Hraw, successes_raise. reflexivity.
      * rewrite Hfails, failures_raise, Hc, andb_true_r. cbn [fails st1].
        rewrite lookup_insert. destruct (decide (s = s0)) as [<-|Hne].
        -- rewrite Hn, String.eqb_refl. cbn. f_equal. lia.
        -- apply String.eqb_neq in Hne. rewrite Hne.
           destruct (fails st !! s0); cbn; [f_equal; lia|reflexivity].
Qed.

Lemma stats_of_entry (s : string) (l : list Sample) (fail : Z) :
  l <> [] -> stats_of sqrt s l fail = Ok (entry_of sqrt s l fail).
Proof.
  intros Hl. destruct l as [|x [|y l]]; [contradiction|reflexivity|].
  unfold stats_of, entry_of.
  replace (1 <? Z.of_nat (length (x :: y :: l))) with true
    by (symmetry; apply Z.ltb_lt; cbn [length]; lia).
  replace (Z.of_nat (length (x :: y :: l)) =? 1) with false
    by (symmetry; apply Z.eqb_neq; cbn [length]; lia).
  reflexivity.
Qed.

Lemma for_each_emit (st : sampling) (R : string -> list Sample) (F : string -> Z)
    (l : list string) :
  (forall s, In s l -> raw st !! s = Some (R s) /\ fails st !! s = Some (F s)) ->
  forall out,
    for_each (emit sqrt st) l out
    = Ok (out ++ map (fun s => entry_of sqrt s (R s) (F s))
                   (List.filter (fun s => match R s with [] => false | _ => true end) l)).
Proof.
  induction l as [|s l IH]; intros Hst out.
  - cbn. now rewrite app_nil_r.
  - destruct (Hst s (or_introl eq_refl)) as [Hr Hf].
    cbn [for_each List.filter]. unfold emit at 1. unfold getitem.
    rewrite Hr, Hf. cbn [bind].
    destruct (R s) as [|x l'] eqn:HR.
    + cbn [length Z.of_nat Z.eqb]. apply IH. intros s0 H0. apply Hst. now right.
    + replace (Z.of_nat (length (x :: l')) =? 0) with false
        by (symmetry; apply Z.eqb_neq; cbn [length]; lia).
      rewrite stats_of_entry by discriminate. cbn [bind].
      rewrite IH by (intros s0 H0; apply Hst; now right).
      cbn [map]. rewrite HR, <- app_assoc. reflexivity.
Qed.

Lemma for_each_ext {T St : Type} (f g : T -> St -> result St) (l : list T) :
  (forall x st, f x st = g x st) ->
  forall st, for_each f l st = for_each g l st.
Proof.
  intros H. induction l as [|x l IH]; intros st; [reflexivity|].
  cbn [for_each]. rewrite H. destruct (g x st); cbn [bind]; [apply IH|reflexivity].
Qed.

(** The pauses have no part in an attempt. *)
Lemma attempt_forget (s : string) (st1 st2 : sampling) :
  forget st1 = forget st2 ->
  rmap forget (attempt query catches s st1) = rmap forget (attempt query catches s st2).
Proof.
  unfold forget. intros [= Ha Hr Hf]. unfold attempt. rewrite Ha, Hr, Hf.
  destruct (getitem (raw st2) s) as [l|e]; cbn [bind].
  - destruct (query (attempts st2) s) as [v|e]; cbn [bind]; [reflexivity|].
    destruct (catches e); [|reflexivity].
    destruct (getitem (fails st2) s); reflexivity.
  - destruct (catches e); [|reflexivity].
    destruct (getitem (fails st2) s); reflexivity.
Qed.

Lemma for_each_attempt_forget (l : list string) :
  forall st1 st2,
    forget st1 = forget st2 ->
    rmap forget (for_each (attempt query catches) l st1)
    = rmap forget (for_each (attempt query catches) l st2).
Proof.
  induction l as [|s l IH]; intros st1 st2 H.
  - cbn. now f_equal.
  - cbn [for_each]. pose proof (attempt_forget s st1 st2 H) as Hs.
    destruct (attempt query catches s st1) as [a1|e1],
             (attempt query catches s st2) as [a2|e2];
      cbn [rmap bind] in *; try discriminate Hs.
    + apply IH. congruence.
    + exact Hs.
Qed.

(** Up to the pauses, the rounds are one run over the schedule. *)
Lemma rounds_as_schedule (servers : list string) (samples : Z) (n : nat) :
  forall i st1 st2,
    forget st1 = forget st2 ->
    rmap forget
      (for_range (round query catches sleep_between servers samples) i n st1)
    = rmap forget (for_each (attempt query catches) (schedule servers n) st2).
Proof.
  induction n as [|n IH]; intros i st1 st2 H.
  - cbn. now f_equal.
  - unfold schedule. cbn [for_range repeat concat]. rewrite for_each_app.
    fold (schedule servers n). unfold round at 1.
    pose proof (for_each_attempt_forget servers st1 st2 H) as Hs.
    destruct (for_each (attempt query catches) servers st1) as [a1|e1],
             (for_each (attempt query catches) servers st2) as [a2|e2];
      cbn [rmap bind] in *; try discriminate Hs; [|exact Hs].
    assert (Hf : forget a1 = forget a2) by congruence.
    destruct (negb (Z.of_nat i =? samples - 1) && Qltb 0 sleep_between);
      cbn [bind]; apply IH; exact Hf.
Qed.

Lemma attempt_slept (s : string) (st st' : sampling) :
  attempt query catches s st = Ok st' -> slept st' = slept st.
Proof.
  unfold attempt.
  destruct (getitem (raw st) s) as [l|e]; cbn [bind].
  - destruct (query (attempts st) s) as [v|e]; cbn [bind].
    + now intros [= <-].
    + destruct (catches e); [|discriminate].
      destruct (getitem (fails st) s); cbn [bind]; [now intros [= <-]|discriminate].
  - destruct (catches e); [|discriminate].
    destruct (getitem (fails st) s); cbn [bind]; [now intros [= <-]|discriminate].
Qed.

Lemma for_each_attempt_slept (l : list string) :
  forall st st',
    for_each (attempt query catches) l st = Ok st' -> slept st' = slept st.
Proof.
  induction l as [|s l IH]; intros st st'; cbn [for_each].
  - now intros [= <-].
  - destruct (attempt query catches s st) as [st1|e] eqn:E; cbn [bind]; [|discriminate].
    intros H. rewrite (IH _ _ H). exact (attempt_slept _ _ _ E).
Qed.

Lemma rounds_slept (servers : list string) (samples : Z) (n : nat) :
  forall i st st',
    for_range (round query catches sleep_between servers samples) i n st = Ok st' ->
    slept st' = slept st ++ pauses samples sleep_between i n.
Proof.
  induction n as [|n IH]; intros i st st'; cbn [for_range].
  - intros [= <-]. unfold pauses. cbn. now rewrite app_nil_r.
  - unfold round at 1.
    destruct (for_each (attempt query catches) servers st) as [st1|e] eqn:E;
      cbn [bind]; [|discriminate].
    apply for_each_attempt_slept in E.
    unfold pauses. cbn [seq flat_map]. fold (pauses samples sleep_between (S i) n).
    destruct (negb (Z.of_nat i =? samples - 1) && Qltb 0 sleep_between);
      cbn [bind]; intros H; apply IH in H; rewrite H; cbn [slept];
      rewrite E; [now rewrite <- app_assoc|reflexivity].
Qed.

(** The run of [collect_stats] past its argument checks: it raises the
    first exception that its [except] clause does not catch, and
    otherwise returns the expected entries. *)
Lemma sample_and_aggregate_run (servers : list string) (samples : Z) :
  sample_and_aggregate sqrt query catches sleep_between servers samples
  = match first_uncaught catches
            (outcomes query 0 (schedule servers (Z.to_nat samples))) with
    | Some e => Raise e
    | None =>
        Ok (expected_stats sqrt catches servers
              (outcomes query 0 (schedule servers (Z.to_nat samples))))
    end.
Proof.
  unfold sample_and_aggregate, sample_rounds.
  set (st0 := mkSampling 0 (dict_from_keys servers []) (dict_from_keys servers 0) []).
  set (sched := schedule servers (Z.to_nat samples)).
  pose proof (rounds_as_schedule servers samples (Z.to_nat samples) 0%nat st0 st0 eq_refl)
    as Hrounds.
  fold sched in Hrounds.
  pose proof (for_each_attempt sched st0) as Hrun.
  assert (Hdom : forall s, In s sched ->
            is_Some (raw st0 !! s) /\ is_Some (fails st0 !! s)).
  { intros s Hs. apply in_schedule in Hs. cbn [raw fails st0].
    rewrite !dict_from_keys_lookup by assumption. split; eauto. }
  specialize (Hrun Hdom). cbn [attempts st0] in Hrun.
  destruct (first_uncaught catches (outcomes query 0 sched)) as [e|].
  - rewrite Hrun in Hrounds.
    destruct (for_range _ _ _ _) as [st1|e1]; cbn [rmap] in Hrounds;
      [discriminate Hrounds|].
    now injection Hrounds as ->.
  - destruct Hrun as (st' & Hrun & Hraw & Hfails). rewrite Hrun in Hrounds.
    destruct (for_range _ _ _ _) as [st1|e1]; cbn [rmap] in Hrounds;
      [|discriminate Hrounds].
    assert (Hst : forget st1 = forget st') by congruence.
    unfold forget in Hst. injection Hst as _ Hr Hf.
    cbn [bind].
    rewrite (for_each_emit st1
               (fun s => successes_of s (outcomes query 0 sched))
               (fun s => failures_of catches s (outcomes query 0 sched))).
    + reflexivity.
    + intros s Hs. rewrite Hr, Hf, Hraw, Hfails. cbn [raw fails st0].
      rewrite !dict_from_keys_lookup by assumption. split; reflexivity.
Qed.

End SamplingProofs.

(* ===================================================================== *)
(** ** Comparisons of rationals *)
(* ===================================================================== *)

Lemma Qleb_le (x y : Q) : Qleb x y = true <-> (x <= y)%Q.
Proof. apply Qle_bool_iff. Qed.

Lemma Qleb_gt (x y : Q) : Qleb x y = false <-> (y < x)%Q.
Proof.
  unfold Qleb. split; intros H.
  - apply Qnot_le_lt. intros Hle. apply Qle_bool_iff in Hle. congruence.
  - destruct (Qle_bool x y) eqn:E; [|reflexivity].
    apply Qle_bool_iff in E. exfalso. exact (Qlt_not_le _ _ H E).
Qed.

Lemma Qltb_lt (x y : Q) : Qltb x y = true <-> (x < y)%Q.
Proof.
  unfold Qltb. rewrite negb_true_iff. apply Qleb_gt.
Qed.

Lemma Qltb_ge (x y : Q) : Qltb x y = false <-> (y <= x)%Q.
Proof.
  unfold Qltb. rewrite negb_false_iff. apply Qleb_le.
Qed.

(* ===================================================================== *)
(** ** [collect_stats] (core.py) *)
(* ===================================================================== *)

(** The argument checks of core.py, then the run. *)
Lemma core_collect_stats_unfold (sqrt : Q -> Q)
    (query : nat -> string -> Q -> result Sample)
    (servers : list string) (samples : Z) (timeout sleep_between : Q) :
  Core.collect_stats_with sqrt query servers samples timeout sleep_between
  = if (samples <? 1) || Qleb timeout 0 || Qltb sleep_between 0
    then Raise ValueError
    else match first_uncaught Core.catches
                 (outcomes (fun k s => query k s timeout) 0
                    (schedule servers (Z.to_nat samples))) with
         | Some e => Raise e
         | None =>
             Ok (expected_stats sqrt Core.catches servers
                   (outcomes (fun k s => query k s timeout) 0
                      (schedule servers (Z.to_nat samples))))
         end.
Proof.
  unfold Core.collect_stats_with. rewrite sample_and_aggregate_run.
  destruct (samples <? 1); [reflexivity|].
  destruct (Qleb timeout 0); [reflexivity|].
  destruct (Qltb sleep_between 0); reflexivity.
Qed.

Lemma core_collect_stats_ok (sqrt : Q -> Q)
    (query : nat -> string -> Q -> result Sample)
    (servers : list string) (samples : Z) (timeout sleep_between : Q)
    (out : list Stats) :
  Core.collect_stats_with sqrt query servers samples timeout sleep_between = Ok out ->
  1 <= samples
  /\ first_uncaught Core.catches
       (outcomes (fun k s => query k s timeout) 0
          (schedule servers (Z.to_nat samples))) = None
  /\ out = expected_stats sqrt Core.catches servers
             (outcomes (fun k s => query k s timeout) 0
                (schedule servers (Z.to_nat samples))).
Proof.
  rewrite core_collect_stats_unfold.
  destruct (Z.ltb_spec samples 1) as [Hs|Hs]; [discriminate|].
  destruct (Qleb timeout 0); [discriminate|].
  destruct (Qltb sleep_between 0); [discriminate|]. cbn [orb].
  destruct (first_uncaught _ _); [discriminate|].
  intros [= <-]. auto.
Qed.

(* ===================================================================== *)
(** ** Counting the attempts of a server *)
(* ===================================================================== *)

Lemma occurrences_app (s : string) (l1 l2 : list string) :
  occurrences s (l1 ++ l2) = (occurrences s l1 + occurrences s l2)%nat.
Proof. unfold occurrences. now rewrite List.filter_app, length_app. Qed.

Lemma occurrences_schedule (s : string) (servers : list string) (n : nat) :
  occurrences s (schedule servers n) = (n * occurrences s servers)%nat.
Proof.
  unfold schedule. induction n as [|n IH]; [reflexivity|].
  cbn [repeat concat]. rewrite occurrences_app. fold (schedule servers n) in *.
  unfold schedule in *. rewrite IH. lia.
Qed.

Lemma occurrences_notin (s : string) (l : list string) :
  ~ In s l -> occurrences s l = 0%nat.
Proof.
  unfold occurrences. induction l as [|x l IH]; intros Hn; [reflexivity|].
  cbn [List.filter]. destruct (String.eqb_spec x s) as [->|Hne].
  - exfalso. apply Hn. now left.
  - apply IH. intros H. apply Hn. now right.
Qed.

Lemma occurrences_nodup (s : string) (l : list string) :
  List.NoDup l -> In s l -> occurrences s l = 1%nat.
Proof.
  induction 1 as [|x l Hx Hl IH]; intros Hin; [destruct Hin|].
  unfold occurrences in *. cbn [List.filter].
  destruct (String.eqb_spec x s) as [->|Hne].
  - cbn [length]. f_equal. now apply occurrences_notin.
  - destruct Hin as [->|Hin]; [contradiction|]. now apply IH.
Qed.

Section CountingProofs.

Variable query : nat -> string -> result Sample.
Variable catches : exn -> bool.

Lemma outcomes_servers (k : nat) (sched : list string) :
  map fst (outcomes query k sched) = sched.
Proof.
  revert k. induction sched as [|s rest IH]; intros k; [reflexivity|].
  cbn [outcomes map fst]. now rewrite IH.
Qed.

(** With no uncaught exception, every attempt on [s] is either a success
    or a counted failure. *)
Lemma successes_plus_failures (s : string) (tr : list (string * result Sample)) :
  first_uncaught catches tr = None ->
  Z.of_nat (length (successes_of s tr)) + failures_of catches s tr
  = Z.of_nat (occurrences s (map fst tr)).
Proof.
  induction tr as [|[s' [v|e]] tr IH]; intros Hnone.
  - reflexivity.
  - cbn [first_uncaught] in Hnone.
    rewrite successes_ok, failures_ok, length_app, Nat2Z.inj_add, <- Z.add_assoc.
    rewrite IH by assumption. cbn [map fst]. unfold occurrences. cbn [List.filter].
    destruct (String.eqb s' s); cbn [length]; lia.
  - cbn [first_uncaught] in Hnone.
    destruct (catches e) eqn:Hc; [|discriminate].
    rewrite successes_raise, failures_raise, Hc, andb_true_r.
    cbn [map fst]. unfold occurrences. cbn [List.filter].
    specialize (IH Hnone). unfold occurrences in IH.
    destruct (String.eqb s' s); cbn [length]; lia.
Qed.

End CountingProofs.

(** The entries of a list that carry the name [s] are as many as [s] has
    occurrences among the names. *)
Lemma entries_for_map (f : string -> Stats) (s : string) (l : list string) :
  (forall s', server (f s') = s') ->
  entries_for s (map f l) = occurrences s l.
Proof.
  intros Hf. unfold entries_for, occurrences.
  induction l as [|x l IH]; [reflexivity|].
  cbn [map List.filter]. rewrite Hf.
  destruct (String.eqb x s); cbn [length]; now rewrite IH.
Qed.

Lemma occurrences_filter (p : string -> bool) (s : string) (l : list string) :
  occurrences s (List.filter p l) = if p s then occurrences s l else 0%nat.
Proof.
  unfold occurrences. induction l as [|x l IH].
  - now destruct (p s).
  - cbn [List.filter]. destruct (String.eqb_spec x s) as [->|Hne].
    + destruct (p s) eqn:Hp; cbn [List.filter length].
      * rewrite String.eqb_refl. cbn [length]. now rewrite IH.
      * exact IH.
    + destruct (p x); cbn [List.filter]; [|exact IH].
      apply String.eqb_neq in Hne. rewrite Hne. exact IH.
Qed.

(** C3, as stated, fails on a list that names a server twice: the server
    has its samples pooled and is emitted once for each occurrence. *)
Lemma collect_stats_repeated_server :
  exists out,
    Core.collect_stats_with sqrt_micro always_ok ["a"; "a"]%string 1 2 0 = Ok out
    /\ map (fun x => (server x, ok x, fail x)) out
       = [("a"%string, 2, 0); ("a"%string, 2, 0)]
    /\ entries_for "a" out = 2%nat.
Proof.
  eexists. split; [vm_compute; reflexivity|]. split; reflexivity.
Qed.

(** C3, amended.  The list that [collect_stats] returns has one entry for
    each occurrence in the input list of a server with at least one
    successful sample (so exactly one for such a server when the list names
    it once) and none for a server without, in the order of the input list;
    the entry of a server carries the arithmetic means of the offsets and of
    the delays of its successful samples and their population standard
    deviations, 0 when it has exactly one sample. *)
Theorem collect_stats_entries (sqrt : Q -> Q)
    (query : nat -> string -> Q -> result Sample)
    (servers : list string) (samples : Z) (timeout sleep_between : Q)
    (out : list Stats) :
  let tr := outcomes (fun k s => query k s timeout) 0
              (schedule servers (Z.to_nat samples)) in
  Core.collect_stats_with sqrt query servers samples timeout sleep_between = Ok out ->
  out
  = map (fun s =>
           let l := successes_of s tr in
           let n := Z.of_nat (length l) in
           {| server := s;
              ok := n;
              fail := failures_of Core.catches s tr;
              avg_offset_ms := mean_val (map offset_ms l);
              std_offset_ms :=
                if n =? 1 then 0%Q else sqrt (pvariance_val (map offset_ms l));
              avg_delay_ms := mean_val (map delay_ms l);
              std_delay_ms :=
                if n =? 1 then 0%Q else sqrt (pvariance_val (map delay_ms l)) |})
      (List.filter (fun s => negb (Nat.eqb (length (successes_of s tr)) 0)) servers)
  /\ (forall s,
        entries_for s out
        = if Nat.eqb (length (successes_of s tr)) 0 then 0%nat
          else occurrences s servers).
Proof.
  intros tr H. apply core_collect_stats_ok in H. destruct H as (_ & _ & ->).
  fold tr. unfold expected_stats.
  assert (Hp : forall s, has_success tr s
                         = negb (Nat.eqb (length (successes_of s tr)) 0)).
  { intros s. unfold has_success. destruct (successes_of s tr); reflexivity. }
  rewrite (filter_ext _ _ Hp). split; [reflexivity|].
  intros s. rewrite entries_for_map by reflexivity.
  rewrite occurrences_filter.
  destruct (Nat.eqb (length (successes_of s tr)) 0); reflexivity.
Qed.

Lemma collect_stats_entries_witness :
  map server demo_stats = ["a"; "c"]%string
  /\ entries_for "a" demo_stats = 1%nat
  /\ entries_for "b" demo_stats = 0%nat.
Proof.
  destruct (collect_stats_entries sqrt_micro demo_query demo_servers 2 2 (1 # 2)
              demo_stats) as [Hout Hcount].
  - vm_compute. reflexivity.
  - split; [rewrite Hout; vm_compute; reflexivity|].
    split; [rewrite (Hcount "a"%string)|rewrite (Hcount "b"%string)];
      vm_compute; reflexivity.
Defined.

(** C10.  Over a list of distinct servers, every entry that [collect_stats]
    emits has [ok + fail = samples] and [ok >= 1]: each round contributes
    one success or one counted failure to each server. *)
Theorem collect_stats_ok_plus_fail (sqrt : Q -> Q)
    (query : nat -> string -> Q -> result Sample)
    (servers : list string) (samples : Z) (timeout sleep_between : Q)
    (out : list Stats) :
  List.NoDup servers ->
  Core.collect_stats_with sqrt query servers samples timeout sleep_between = Ok out ->
  Forall (fun x => ok x + fail x = samples /\ 1 <= ok x) out.
Proof.
  intros Hnd H. apply core_collect_stats_ok in H.
  destruct H as (Hs & Hnone & ->).
  unfold expected_stats. apply List.Forall_forall. intros x Hx.
  apply in_map_iff in Hx. destruct Hx as (s & <- & Hs').
  apply filter_In in Hs'. destruct Hs' as [Hin Hhas].
  cbn [entry_of ok fail]. split.
  - rewrite successes_plus_failures by assumption.
    rewrite outcomes_servers, occurrences_schedule.
    rewrite (occurrences_nodup s servers Hnd Hin). lia.
  - unfold has_success in Hhas.
    destruct (successes_of s _); [discriminate|]. cbn [length]. lia.
Qed.

Lemma demo_servers_distinct : List.NoDup demo_servers.
Proof.
  unfold demo_servers. repeat constructor; cbn; intuition discriminate.
Qed.

Lemma collect_stats_ok_plus_fail_witness :
  Forall (fun x => ok x + fail x = 2 /\ 1 <= ok x) demo_stats.
Proof.
  apply (collect_stats_ok_plus_fail sqrt_micro demo_query demo_servers 2 2 (1 # 2)).
  - exact demo_servers_distinct.
  - vm_compute. reflexivity.
Defined.

(* ===================================================================== *)
(** ** The sort of [rank_servers] *)
(* ===================================================================== *)

Lemma insert_by_score_perm (x : Ranked) (l : list Ranked) :
  Permutation (insert_by_score x l) (x :: l).
Proof.
  induction l as [|y l IH]; cbn [insert_by_score]; [reflexivity|].
  destruct (Qltb (score y) (score x)); [|reflexivity].
  rewrite IH. apply perm_swap.
Qed.

Lemma sort_by_score_perm (l : list Ranked) : Permutation (sort_by_score l) l.
Proof.
  induction l as [|x l IH]; cbn; [reflexivity|].
  rewrite insert_by_score_perm. now constructor.
Qed.

(* ===================================================================== *)
(** ** [rank_servers] *)
(* ===================================================================== *)

Lemma rank_loop (grade : Q -> Grade) (base : string) (w_delay w_jitter : Q)
    (max_delay_ms : option Q) (allow_base : bool) (b : Stats) (stats : list Stats) :
  forall acc,
    fold_left (fun ranked st =>
                 rank_one grade base w_delay w_jitter max_delay_ms allow_base b st ranked)
      stats acc
    = acc ++ map (ranked_of grade w_delay w_jitter b)
               (List.filter (is_candidate base max_delay_ms allow_base) stats).
Proof.
  induction stats as [|st stats IH]; intros acc.
  - cbn. now rewrite app_nil_r.
  - cbn [fold_left List.filter]. rewrite IH. unfold rank_one, is_candidate, too_slow.
    destruct allow_base; cbn [negb orb andb].
    + destruct max_delay_ms as [m|]; unfold Qltb, Qleb.
      * destruct (Qle_bool m (avg_delay_ms st)); cbn [negb map];
          [reflexivity|now rewrite <- app_assoc].
      * cbn [map]. now rewrite <- app_assoc.
    + destruct (String.eqb (server st) base); cbn [negb andb]; [reflexivity|].
      destruct max_delay_ms as [m|]; unfold Qltb, Qleb.
      * destruct (Qle_bool m (avg_delay_ms st)); cbn [negb map];
          [reflexivity|now rewrite <- app_assoc].
      * cbn [map]. now rewrite <- app_assoc.
Qed.

Lemma find_base_exists (stats : list Stats) (base : string) :
  Exists (fun x => server x = base) stats ->
  exists b, find_base stats base = Some b /\ In b stats /\ server b = base.
Proof.
  unfold find_base. induction 1 as [x l Hx|x l _ IH].
  - exists x. cbn [find]. subst base. rewrite String.eqb_refl.
    repeat split. now left.
  - cbn [find]. destruct (String.eqb_spec (server x) base) as [E|E].
    + exists x. repeat split; [now left|exact E].
    + destruct IH as (b & Hf & Hin & Hb). exists b. repeat split; auto. now right.
Qed.

Lemma find_base_absent (stats : list Stats) (base : string) :
  Forall (fun x => server x <> base) stats -> find_base stats base = None.
Proof.
  unfold find_base. induction 1 as [|x l Hx _ IH]; [reflexivity|].
  cbn [find]. apply String.eqb_neq in Hx. now rewrite Hx.
Qed.

Lemma core_rank_checks (stats : list Stats) (base : string)
    (w_delay w_jitter : Q) (max_delay_ms : option Q) (allow_base : bool) :
  valid_ranking w_delay w_jitter max_delay_ms ->
  Core.rank_servers stats base w_delay w_jitter max_delay_ms allow_base
  = rank_from Core.grade base w_delay w_jitter max_delay_ms allow_base stats.
Proof.
  intros (Hd & Hj & Hm). unfold Core.rank_servers.
  apply Qltb_ge in Hd, Hj. rewrite Hd, Hj. cbn [orb negb].
  destruct max_delay_ms as [m|]; [|reflexivity].
  apply Qleb_gt in Hm. now rewrite Hm.
Qed.

Lemma grade_cases (s : Q) :
  (Core.grade s = Grade_A <-> (s <= 5)%Q)
  /\ (Core.grade s = Grade_B <-> (5 < s)%Q /\ (s <= 10)%Q)
  /\ (Core.grade s = Grade_C <-> (10 < s)%Q /\ (s <= 20)%Q)
  /\ (Core.grade s = Grade_D <-> (20 < s)%Q).
Proof.
  unfold Core.grade.
  destruct (Qleb s 5) eqn:E5; [apply Qleb_le in E5|apply Qleb_gt in E5];
  destruct (Qleb s 10) eqn:E10; [apply Qleb_le in E10|apply Qleb_gt in E10| |];
  destruct (Qleb s 20) eqn:E20;
  try apply Qleb_le in E10; try apply Qleb_gt in E10;
  try apply Qleb_le in E20; try apply Qleb_gt in E20;
  repeat split; intros; try discriminate; try assumption; try lra.
Qed.

Lemma is_candidate_iff (base : string) (max_delay_ms : option Q)
    (allow_base : bool) (st : Stats) :
  is_candidate base max_delay_ms allow_base st = true
  <-> (allow_base = true \/ server st <> base)
      /\ (forall m, max_delay_ms = Some m -> (avg_delay_ms st < m)%Q).
Proof.
  unfold is_candidate. rewrite andb_true_iff, orb_true_iff, negb_true_iff.
  rewrite String.eqb_neq.
  destruct max_delay_ms as [m|].
  - rewrite Qltb_lt. split; intros [H1 H2]; (split; [exact H1|]).
    + now intros m' [= <-].
    + now apply H2.
  - split; intros [H1 _]; (split; [exact H1|]); [discriminate|reflexivity].
Qed.

(* ===================================================================== *)
(** ** The order of the floats *)
(* ===================================================================== *)

(** The comparisons of floats are specified on their decomposition into
    sign, mantissa and exponent ([spec_float]); there they are a
    lexicographic comparison, total on the values that are not NaN. *)

Ltac sf_cases :=
  repeat match goal with
         | s : bool |- _ => destruct s
         end;
  cbn; try discriminate; try reflexivity; try tauto.

Ltac sf_order :=
  change (Pos.compare_cont Eq) with Pos.compare in *;
  repeat match goal with
         | |- context [Z.compare ?a ?b] =>
             destruct (Z.compare_spec a b); subst
         | |- context [Pos.compare ?a ?b] =>
             destruct (Pos.compare_spec a b); subst
         end;
  cbn; try discriminate; try reflexivity; try lia; try tauto.

Lemma SFltb_leb (a b : spec_float) : SFltb a b = true -> SFleb a b = true.
Proof.
  unfold SFltb, SFleb. destruct (SFcompare a b) as [[]|]; congruence.
Qed.

Lemma SFleb_not_nan (a b : spec_float) :
  SFleb a b = true -> a <> S754_nan /\ b <> S754_nan.
Proof.
  unfold SFleb.
  destruct a as [sa|sa| |sa ma ea], b as [sb|sb| |sb mb eb]; cbn;
    intros H; try discriminate H; split; discriminate.
Qed.

Lemma SFleb_total (a b : spec_float) :
  a <> S754_nan -> b <> S754_nan -> SFleb a b = negb (SFltb b a).
Proof.
  intros Ha Hb. unfold SFltb, SFleb.
  destruct a as [sa|sa| |sa ma ea], b as [sb|sb| |sb mb eb]; try congruence;
    cbn; sf_cases; sf_order.
Qed.

Lemma SFleb_trans (a b c : spec_float) :
  SFleb a b = true -> SFleb b c = true -> SFleb a c = true.
Proof.
  unfold SFleb.
  destruct a as [sa|sa| |sa ma ea], b as [sb|sb| |sb mb eb], c as [sc|sc| |sc mc ec];
    cbn; sf_cases; sf_order.
Qed.

Lemma SFeqb_not_ltb (a b q : spec_float) :
  SFeqb a q = true -> SFeqb b q = true -> SFltb b a = false.
Proof.
  unfold SFeqb, SFltb.
  destruct a as [sa|sa| |sa ma ea], b as [sb|sb| |sb mb eb], q as [sq|sq| |sq mq eq];
    cbn; sf_cases; sf_order.
Qed.

Lemma SFeqb_refl (a : spec_float) : a <> S754_nan -> SFeqb a a = true.
Proof.
  unfold SFeqb. destruct a as [sa|sa| |sa ma ea]; try congruence; cbn;
    sf_cases; sf_order.
Qed.

(** [x] is not NaN exactly when [x == x]. *)
Lemma float_is_nan_spec (x : float) : is_nan x = false <-> Prim2SF x <> S754_nan.
Proof.
  unfold is_nan. rewrite FloatAxioms.eqb_spec. split.
  - intros H E. rewrite E in H. discriminate H.
  - intros H. now rewrite SFeqb_refl.
Qed.

Lemma float_ltb_leb (x y : float) : (x <? y)%float = true -> (x <=? y)%float = true.
Proof. rewrite FloatAxioms.ltb_spec, FloatAxioms.leb_spec. apply SFltb_leb. Qed.

(** A comparison that holds has no NaN on either side. *)
Lemma float_leb_not_nan (x y : float) :
  (x <=? y)%float = true -> is_nan x = false /\ is_nan y = false.
Proof. rewrite FloatAxioms.leb_spec, !float_is_nan_spec. apply SFleb_not_nan. Qed.

(** On numbers, [x <= y] is [not (y < x)]. *)
Lemma float_leb_negb_ltb (x y : float) :
  is_nan x = false -> is_nan y = false -> (x <=? y)%float = negb (y <? x)%float.
Proof. rewrite !float_is_nan_spec, FloatAxioms.ltb_spec, FloatAxioms.leb_spec. apply SFleb_total. Qed.

Lemma float_ltb_negb_leb (x y : float) :
  is_nan x = false -> is_nan y = false -> (x <? y)%float = negb (y <=? x)%float.
Proof.
  intros Hx Hy. rewrite (float_leb_negb_ltb y x Hy Hx). now rewrite negb_involutive.
Qed.

Lemma float_leb_trans (x y z : float) :
  (x <=? y)%float = true -> (y <=? z)%float = true -> (x <=? z)%float = true.
Proof. rewrite !FloatAxioms.leb_spec. apply SFleb_trans. Qed.

(** Two floats equal to a third are not in strict order. *)
Lemma float_eqb_not_ltb (x y q : float) :
  (x =? q)%float = true -> (y =? q)%float = true -> (y <? x)%float = false.
Proof. rewrite !FloatAxioms.eqb_spec, FloatAxioms.ltb_spec. apply SFeqb_not_ltb. Qed.

(* ===================================================================== *)
(** ** The sort of [rank_servers], on floats *)
(* ===================================================================== *)

Lemma b64_insert_by_score_perm (x : Binary64.Ranked) (l : list Binary64.Ranked) :
  Permutation (Binary64.insert_by_score x l) (x :: l).
Proof.
  induction l as [|y l IH]; cbn [Binary64.insert_by_score]; [reflexivity|].
  destruct (Binary64.score y <? Binary64.score x)%float; [|reflexivity].
  rewrite IH. apply perm_swap.
Qed.

Lemma b64_sort_by_score_perm (l : list Binary64.Ranked) :
  Permutation (Binary64.sort_by_score l) l.
Proof.
  induction l as [|x l IH]; cbn; [reflexivity|].
  rewrite b64_insert_by_score_perm. now constructor.
Qed.

(** Insertion keeps a list ascending, when no score is NaN. *)
Lemma b64_insert_by_score_sorted (x : Binary64.Ranked) (l : list Binary64.Ranked) :
  is_nan (Binary64.score x) = false ->
  Forall (fun y => is_nan (Binary64.score y) = false) l ->
  StronglySorted Binary64.score_le l ->
  StronglySorted Binary64.score_le (Binary64.insert_by_score x l).
Proof.
  intros Hx Hl Hs. induction Hs as [|y l Hs IH Hy]; cbn [Binary64.insert_by_score].
  - repeat constructor.
  - apply List.Forall_cons_iff in Hl. destruct Hl as [Hny Hl].
    destruct (Binary64.score y <? Binary64.score x)%float eqn:E.
    + constructor; [exact (IH Hl)|].
      apply (@Permutation_Forall _ _ (x :: l)).
      * symmetry. apply b64_insert_by_score_perm.
      * constructor; [|exact Hy]. now apply float_ltb_leb.
    + assert (Hxy : Binary64.score_le x y).
      { unfold Binary64.score_le. rewrite float_leb_negb_ltb by assumption.
        now rewrite E. }
      constructor; [now constructor|].
      constructor; [exact Hxy|].
      eapply List.Forall_impl; [|exact Hy].
      intros z Hz. unfold Binary64.score_le in *.
      eapply float_leb_trans; eassumption.
Qed.

Lemma b64_sort_by_score_sorted (l : list Binary64.Ranked) :
  Forall (fun y => is_nan (Binary64.score y) = false) l ->
  StronglySorted Binary64.score_le (Binary64.sort_by_score l).
Proof.
  induction 1 as [|x l Hx Hl IH]; cbn; [constructor|].
  apply b64_insert_by_score_sorted; [exact Hx| |exact IH].
  apply (@Permutation_Forall _ _ l); [|exact Hl].
  symmetry. apply b64_sort_by_score_perm.
Qed.

(** Insertion moves an entry only past entries of a smaller score, so it
    lands in front of the entries of its own score. *)
Lemma b64_with_score_insert (q : float) (x : Binary64.Ranked)
    (l : list Binary64.Ranked) :
  Binary64.with_score q (Binary64.insert_by_score x l)
  = Binary64.with_score q (x :: l).
Proof.
  induction l as [|y l IH]; [reflexivity|].
  cbn [Binary64.insert_by_score].
  destruct (Binary64.score y <? Binary64.score x)%float eqn:E; [|reflexivity].
  unfold Binary64.with_score in *. cbn [List.filter] in *. rewrite IH.
  destruct (Binary64.score x =? q)%float eqn:Ex; [|reflexivity].
  destruct (Binary64.score y =? q)%float eqn:Ey; [|reflexivity].
  rewrite (float_eqb_not_ltb _ _ _ Ex Ey) in E. discriminate E.
Qed.

Lemma b64_with_score_sort (q : float) (l : list Binary64.Ranked) :
  Binary64.with_score q (Binary64.sort_by_score l) = Binary64.with_score q l.
Proof.
  induction l as [|x l IH]; [reflexivity|].
  cbn [Binary64.sort_by_score fold_right]. rewrite b64_with_score_insert.
  fold (Binary64.sort_by_score l). unfold Binary64.with_score in *.
  cbn [List.filter]. now rewrite IH.
Qed.

(* ===================================================================== *)
(** ** [rank_servers], on floats *)
(* ===================================================================== *)

(** The loop keeps the candidates.  The code skips an entry whose delay is
    at or above the threshold; on numbers, that leaves the entries strictly
    below it. *)
Lemma b64_rank_loop (base : string) (w_delay w_jitter : float)
    (max_delay_ms : option float) (allow_base : bool) (b : Binary64.Stats)
    (stats : list Binary64.Stats) :
  match max_delay_ms with Some m => is_nan m = false | None => True end ->
  Forall (fun st => is_nan (Binary64.avg_delay_ms st) = false) stats ->
  forall acc,
    fold_left (fun ranked st =>
                 Binary64.rank_one base w_delay w_jitter max_delay_ms allow_base
                   b st ranked)
      stats acc
    = acc ++ map (Binary64.ranked_of w_delay w_jitter b)
               (List.filter (Binary64.is_candidate base max_delay_ms allow_base) stats).
Proof.
  intros Hm. induction 1 as [|st stats Hst _ IH]; intros acc.
  - cbn. now rewrite app_nil_r.
  - cbn [fold_left List.filter]. rewrite IH.
    unfold Binary64.rank_one, Binary64.is_candidate, Binary64.too_slow.
    destruct max_delay_ms as [m|].
    + rewrite (float_ltb_negb_leb _ _ Hst Hm).
      destruct allow_base; cbn [negb orb andb].
      * destruct (m <=? Binary64.avg_delay_ms st)%float; cbn [negb map];
          [reflexivity|now rewrite <- app_assoc].
      * destruct (String.eqb (Binary64.server st) base); cbn [negb andb];
          [reflexivity|].
        destruct (m <=? Binary64.avg_delay_ms st)%float; cbn [negb map];
          [reflexivity|now rewrite <- app_assoc].
    + destruct allow_base; cbn [negb orb andb].
      * cbn [map]. now rewrite <- app_assoc.
      * destruct (String.eqb (Binary64.server st) base); cbn [negb andb];
          [reflexivity|].
        cbn [map]. now rewrite <- app_assoc.
Qed.

Lemma b64_find_base_exists (stats : list Binary64.Stats) (base : string) :
  Exists (fun x => Binary64.server x = base) stats ->
  exists b, Binary64.find_base stats base = Some b /\ In b stats
            /\ Binary64.server b = base.
Proof.
  unfold Binary64.find_base. induction 1 as [x l Hx|x l _ IH].
  - exists x. cbn [find]. subst base. rewrite String.eqb_refl.
    repeat split. now left.
  - cbn [find]. destruct (String.eqb_spec (Binary64.server x) base) as [E|E].
    + exists x. repeat split; [now left|exact E].
    + destruct IH as (b & Hf & Hin & Hb). exists b. repeat split; auto. now right.
Qed.

(** With valid weights and threshold the checks of core.py pass. *)
Lemma b64_rank_checks (stats : list Binary64.Stats) (base : string)
    (w_delay w_jitter : float) (max_delay_ms : option float) (allow_base : bool) :
  Binary64.valid_ranking w_delay w_jitter max_delay_ms ->
  Binary64.Core.rank_servers stats base w_delay w_jitter max_delay_ms allow_base
  = Binary64.rank_from base w_delay w_jitter max_delay_ms allow_base stats.
Proof.
  intros (Hd & Hj & Hm). unfold Binary64.Core.rank_servers.
  destruct (float_leb_not_nan _ _ Hd) as [H0 Hnd].
  destruct (float_leb_not_nan _ _ Hj) as [_ Hnj].
  rewrite (float_ltb_negb_leb _ _ Hnd H0), Hd.
  rewrite (float_ltb_negb_leb _ _ Hnj H0), Hj. cbn [orb negb].
  destruct max_delay_ms as [m|]; [|reflexivity].
  destruct (float_leb_not_nan _ _ (float_ltb_leb _ _ Hm)) as [_ Hnm].
  rewrite (float_leb_negb_ltb _ _ Hnm H0), Hm. reflexivity.
Qed.

(** The grade of a score that is a number. *)
Lemma b64_grade_cases (s : float) :
  is_nan s = false ->
  (Binary64.grade s = Grade_A <-> (s <=? 5)%float = true)
  /\ (Binary64.grade s = Grade_B
      <-> (5 <? s)%float = true /\ (s <=? 10)%float = true)
  /\ (Binary64.grade s = Grade_C
      <-> (10 <? s)%float = true /\ (s <=? 20)%float = true)
  /\ (Binary64.grade s = Grade_D <-> (20 <? s)%float = true).
Proof.
  intros Hs. unfold Binary64.grade.
  rewrite (float_ltb_negb_leb 5 s), (float_ltb_negb_leb 10 s),
    (float_ltb_negb_leb 20 s) by (exact Hs || reflexivity).
  assert (H510 : (s <=? 5)%float = true -> (s <=? 10)%float = true).
  { intros H. apply (float_leb_trans s 5 10 H). reflexivity. }
  assert (H1020 : (s <=? 10)%float = true -> (s <=? 20)%float = true).
  { intros H. apply (float_leb_trans s 10 20 H). reflexivity. }
  destruct (s <=? 5)%float, (s <=? 10)%float, (s <=? 20)%float; cbn [negb];
    try discriminate (H510 eq_refl); try discriminate (H1020 eq_refl);
    intuition congruence.
Qed.

(** C4.  In the arithmetic of the code (binary64).  When the stats hold an
    entry for the baseline, the weights and the threshold are valid, and
    the average delays and the scores are numbers (none is NaN),
    [rank_servers] returns exactly the candidates (every entry, but the
    baseline when [allow_base] is false, whose average delay is strictly
    below [max_delay_ms] when it is given; all of them when it is not),
    each with vs_base_ms = avg_offset_ms - the baseline's avg_offset_ms,
    score = |vs_base_ms| + w_delay * avg_delay_ms + w_jitter * std_offset_ms
    (computed from left to right, each operation rounded) and the grade of
    its score (A up to 5, B up to 10, C up to 20, else D); the output is
    ascending by score, and entries of equal score keep the order of the
    input. *)
Theorem rank_servers_ranking (stats : list Binary64.Stats) (base : string)
    (w_delay w_jitter : float) (max_delay_ms : option float) (allow_base : bool) :
  Binary64.valid_ranking w_delay w_jitter max_delay_ms ->
  Exists (fun x => Binary64.server x = base) stats ->
  (forall b, Binary64.find_base stats base = Some b ->
             Forall (Binary64.numeric w_delay w_jitter b) stats) ->
  exists b out,
    Binary64.find_base stats base = Some b /\ In b stats
    /\ Binary64.server b = base
    /\ Binary64.Core.rank_servers stats base w_delay w_jitter max_delay_ms allow_base
       = Ok out
    /\ (forall st,
          Binary64.is_candidate base max_delay_ms allow_base st = true
          <-> (allow_base = true \/ Binary64.server st <> base)
              /\ (forall m, max_delay_ms = Some m ->
                            (Binary64.avg_delay_ms st <? m)%float = true))
    /\ Permutation out
         (map (fun st =>
                 {| Binary64.r_server := Binary64.server st;
                    Binary64.r_ok := Binary64.ok st;
                    Binary64.r_fail := Binary64.fail st;
                    Binary64.r_avg_offset_ms := Binary64.avg_offset_ms st;
                    Binary64.r_std_offset_ms := Binary64.std_offset_ms st;
                    Binary64.r_avg_delay_ms := Binary64.avg_delay_ms st;
                    Binary64.r_std_delay_ms := Binary64.std_delay_ms st;
                    Binary64.vs_base_ms :=
                      (Binary64.avg_offset_ms st - Binary64.avg_offset_ms b)%float;
                    Binary64.score :=
                      (PrimFloat.abs
                         (Binary64.avg_offset_ms st - Binary64.avg_offset_ms b)
                       + w_delay * Binary64.avg_delay_ms st
                       + w_jitter * Binary64.std_offset_ms st)%float;
                    Binary64.r_grade :=
                      Binary64.grade
                        (PrimFloat.abs
                           (Binary64.avg_offset_ms st - Binary64.avg_offset_ms b)
                         + w_delay * Binary64.avg_delay_ms st
                         + w_jitter * Binary64.std_offset_ms st)%float |})
            (List.filter (Binary64.is_candidate base max_delay_ms allow_base) stats))
    /\ Forall (fun r =>
                 (Binary64.r_grade r = Grade_A
                  <-> (Binary64.score r <=? 5)%float = true)
                 /\ (Binary64.r_grade r = Grade_B
                     <-> (5 <? Binary64.score r)%float = true
                         /\ (Binary64.score r <=? 10)%float = true)
                 /\ (Binary64.r_grade r = Grade_C
                     <-> (10 <? Binary64.score r)%float = true
                         /\ (Binary64.score r <=? 20)%float = true)
                 /\ (Binary64.r_grade r = Grade_D
                     <-> (20 <? Binary64.score r)%float = true)) out
    /\ StronglySorted
         (fun x y => (Binary64.score x <=? Binary64.score y)%float = true) out
    /\ (forall q,
          List.filter (fun r => (Binary64.score r =? q)%float) out
          = List.filter (fun r => (Binary64.score r =? q)%float)
              (map (Binary64.ranked_of w_delay w_jitter b)
                 (List.filter (Binary64.is_candidate base max_delay_ms allow_base)
                    stats))).
Proof.
  intros Hvalid Hbase Hnum.
  destruct (b64_find_base_exists stats base Hbase) as (b & Hfind & Hin & Hb).
  specialize (Hnum b Hfind).
  set (cands := map (Binary64.ranked_of w_delay w_jitter b)
                  (List.filter (Binary64.is_candidate base max_delay_ms allow_base)
                     stats)).
  assert (Hscores : Forall (fun r => is_nan (Binary64.score r) = false) cands).
  { apply List.Forall_forall. intros r Hr. apply in_map_iff in Hr.
    destruct Hr as (st & <- & Hst). apply filter_In in Hst.
    rewrite List.Forall_forall in Hnum. exact (proj2 (Hnum st (proj1 Hst))). }
  exists b. exists (Binary64.sort_by_score cands).
  split; [exact Hfind|]. split; [exact Hin|]. split; [exact Hb|].
  split.
  { rewrite b64_rank_checks by assumption. unfold Binary64.rank_from.
    rewrite Hfind. rewrite b64_rank_loop; [reflexivity| |].
    - destruct Hvalid as (_ & _ & Hm). destruct max_delay_ms as [m|]; [|exact I].
      exact (proj2 (float_leb_not_nan _ _ (float_ltb_leb _ _ Hm))).
    - eapply List.Forall_impl; [|exact Hnum]. intros st Hst. exact (proj1 Hst). }
  split.
  { intros st. unfold Binary64.is_candidate.
    rewrite andb_true_iff, orb_true_iff, negb_true_iff, String.eqb_neq.
    destruct max_delay_ms as [m|].
    - split; intros [H1 H2]; (split; [exact H1|]).
      + now intros m' [= <-].
      + now apply H2.
    - split; intros [H1 _]; (split; [exact H1|]); [discriminate|reflexivity]. }
  split; [apply b64_sort_by_score_perm|].
  split.
  { apply (@Permutation_Forall _ _ cands).
    - symmetry. apply b64_sort_by_score_perm.
    - apply List.Forall_forall. intros r Hr. apply in_map_iff in Hr.
      destruct Hr as (st & <- & Hst). apply filter_In in Hst.
      rewrite List.Forall_forall in Hnum.
      cbn [Binary64.ranked_of Binary64.r_grade Binary64.score].
      apply b64_grade_cases. exact (proj2 (Hnum st (proj1 Hst))). }
  split; [now apply b64_sort_by_score_sorted|].
  intros q. apply b64_with_score_sort.
Qed.

Lemma b64_test_stats_has_base :
  Exists (fun x => Binary64.server x = "base"%string) b64_test_stats.
Proof. unfold b64_test_stats. apply Exists_cons_hd. reflexivity. Qed.

Lemma b64_default_ranking_valid : Binary64.valid_ranking 0.2 0.5 (Some 100%float).
Proof. unfold Binary64.valid_ranking. repeat split. Qed.

Lemma rank_servers_ranking_witness :
  exists out,
    Binary64.Core.rank_servers b64_test_stats "base" 0.2 0.5 (Some 100%float) true
    = Ok out
    /\ StronglySorted
         (fun x y => (Binary64.score x <=? Binary64.score y)%float = true) out
    /\ map Binary64.r_server out = ["fast"; "base"; "edge"]%string
    /\ map Binary64.r_grade out = [Grade_A; Grade_A; Grade_B].
Proof.
  destruct (rank_servers_ranking b64_test_stats "base" 0.2 0.5 (Some 100%float) true
              b64_default_ranking_valid b64_test_stats_has_base)
    as (b & out & _ & _ & _ & Hrun & _ & _ & _ & Hsorted & _).
  { intros b Hb. vm_compute in Hb. injection Hb as <-.
    unfold b64_test_stats. repeat constructor. }
  exists out. split; [exact Hrun|]. split; [exact Hsorted|].
  vm_compute in Hrun. injection Hrun as <-. split; reflexivity.
Defined.

Lemma default_ranking_valid : valid_ranking (2 # 10) (5 # 10) (Some 100%Q).
Proof. unfold valid_ranking. repeat split; (unfold Qle, Qlt; cbn; lia). Qed.

(** C5.  When no entry of the stats has the baseline as its server (the
    empty list included) and the weights and the threshold are valid,
    [rank_servers] raises [RuntimeError]: there is no output. *)
Theorem rank_servers_missing_base (stats : list Stats) (base : string)
    (w_delay w_jitter : Q) (max_delay_ms : option Q) (allow_base : bool) :
  valid_ranking w_delay w_jitter max_delay_ms ->
  Forall (fun x => server x <> base) stats ->
  Core.rank_servers stats base w_delay w_jitter max_delay_ms allow_base
  = Raise RuntimeError.
Proof.
  intros Hvalid Hnone. rewrite core_rank_checks by assumption.
  unfold rank_from. now rewrite find_base_absent.
Qed.

Lemma rank_servers_missing_base_witness :
  Core.rank_servers [] "missing" (2 # 10) (5 # 10) (Some 100%Q) true
  = Raise RuntimeError
  /\ Core.rank_servers test_stats "missing" (2 # 10) (5 # 10) None false
     = Raise RuntimeError.
Proof.
  split.
  - apply (rank_servers_missing_base [] "missing" (2 # 10) (5 # 10) (Some 100%Q) true).
    + exact default_ranking_valid.
    + constructor.
  - apply (rank_servers_missing_base test_stats "missing" (2 # 10) (5 # 10) None false).
    + unfold valid_ranking. repeat split; (unfold Qle; cbn; lia).
    + unfold test_stats. repeat constructor; cbn; discriminate.
Defined.

(* ===================================================================== *)
(** ** [recommend] *)
(* ===================================================================== *)



(* ===================================================================== *)
(** ** Where the two copies agree *)
(* ===================================================================== *)






Lemma in_outcomes (query : nat -> string -> result Sample) (sched : list string) :
  forall k s r, In (s, r) (outcomes query k sched) -> exists k', r = query k' s.
Proof.
  induction sched as [|s0 rest IH]; intros k s r Hin; [destruct Hin|].
  cbn [outcomes] in Hin. destruct Hin as [[= <- <-]|Hin]; [eauto|].
  exact (IH _ _ _ Hin).
Qed.





(* ===================================================================== *)
(** ** The claims on validation, failures, configuration and recommendation *)
(* ===================================================================== *)

(** core.py: validation refuses a response, with [NTPResponseError], exactly
    when it is too short, or its mode is not 4, or its leap indicator is 3,
    or its stratum is 0, or its originate timestamp is not the one sent; it
    accepts every other response; and in the query a refused response
    yields no sample, whatever the timestamps. *)
Theorem core_validation_rejects_exactly :
  (forall data sec frac,
      Core._validate_ntp_response data sec frac = Raise NTPResponseError
      <-> rejected data sec frac)
  /\ (forall data sec frac,
        Core._validate_ntp_response data sec frac = Ok tt
        <-> ~ rejected data sec frac)
  /\ (forall data sec frac t1 t4,
        Core.on_response data sec frac t1 t4
        = match Core._validate_ntp_response data sec frac with
          | Ok _ => sample_of data t1 t4
          | Raise e => Raise e
          end).
Proof.
  split; [exact validate_rejects_iff|]. split; [|reflexivity].
  intros data sec frac. split.
  - intros H Hrej. apply validate_rejects_iff in Hrej. congruence.
  - apply not_rejected_validates.
Qed.

(** C1.  kntp-lib.py, at a reply in client mode (mode 3) that is otherwise
    in order: core.py refuses it with [NTPResponseError]; kntp-lib.py, which
    checks the length only, computes a sample from it. *)
Theorem legacy_query_accepts_client_mode_reply :
  length client_mode_data = 48%nat
  /\ mode_field client_mode_data = 3
  /\ rejected client_mode_data (req_sec_of noon) (req_frac_of noon)
  /\ Core.query_ntp client_mode_world 0 "time.example" 2 = Raise NTPResponseError
  /\ is_ok (Legacy.query_ntp client_mode_world 0 "time.example" 2) = true.
Proof.
  split; [reflexivity|]. split; [reflexivity|]. split.
  - right. left. intros H. vm_compute in H. discriminate H.
  - split; vm_compute; reflexivity.
Qed.

(** core.py: [collect_stats] raises [ValueError] on a bad configuration
    without consulting the query; otherwise it raises the first exception of
    an attempt that is not a timeout, a name-resolution failure, an
    [OSError], a [struct.error] or an [NTPResponseError], and when there is
    none it returns the entries, in which [fail] counts the attempts on the
    server that raised one of those five. *)
Theorem core_collect_stats_run :
  (forall e,
      Core.catches e = true
      <-> e = SocketTimeout \/ e = SocketGaierror \/ e = OSError
          \/ e = StructError \/ e = NTPResponseError)
  /\ (forall sqrt query servers samples timeout sleep_between,
        Core.collect_stats_with sqrt query servers samples timeout sleep_between
        = if (samples <? 1) || Qleb timeout 0 || Qltb sleep_between 0
          then Raise ValueError
          else match first_uncaught Core.catches
                       (outcomes (fun k s => query k s timeout) 0
                          (schedule servers (Z.to_nat samples))) with
               | Some e => Raise e
               | None =>
                   Ok (expected_stats sqrt Core.catches servers
                         (outcomes (fun k s => query k s timeout) 0
                            (schedule servers (Z.to_nat samples))))
               end).
Proof.
  split; [|exact core_collect_stats_unfold].
  intros e. split.
  - destruct e; cbn; intros H; try discriminate H; auto 6.
  - intros [->|[->|[->|[->| ->]]]]; reflexivity.
Qed.

(** C6.  kntp-lib.py, at a run whose second attempt raises [RuntimeError]:
    core.py lets the exception out of [collect_stats]; kntp-lib.py, whose
    clause is [except Exception], counts it as a failure of the server and
    returns. *)
Theorem legacy_collect_stats_counts_unexpected_error :
  Core.catches RuntimeError = false
  /\ Legacy.catches RuntimeError = true
  /\ Core.collect_stats_with sqrt_micro faulty_query ["s1"%string] 2 2 0
     = Raise RuntimeError
  /\ summary (Legacy.collect_stats_with sqrt_micro faulty_query ["s1"%string] 2 2 0)
     = Ok [("s1"%string, 1, 1)].
Proof.
  repeat split; vm_compute; reflexivity.
Qed.

(** core.py: with [samples < 1], or [timeout <= 0], or [sleep_between < 0],
    [collect_stats] raises [ValueError], whatever the servers and whatever
    the query would answer. *)
Theorem core_collect_stats_rejects_config (sqrt : Q -> Q)
    (query : nat -> string -> Q -> result Sample)
    (servers : list string) (samples : Z) (timeout sleep_between : Q) :
  samples < 1 \/ (timeout <= 0)%Q \/ (sleep_between < 0)%Q ->
  Core.collect_stats_with sqrt query servers samples timeout sleep_between
  = Raise ValueError.
Proof.
  intros H. rewrite core_collect_stats_unfold.
  destruct H as [H|[H|H]].
  - apply Z.ltb_lt in H. now rewrite H.
  - apply Qleb_le in H. rewrite H. now rewrite orb_true_r.
  - apply Qltb_lt in H. rewrite H. now rewrite orb_true_r.
Qed.

Lemma core_collect_stats_rejects_config_witness :
  Core.collect_stats_with sqrt_micro demo_query ["a"%string] 0 2 (1 # 2) = Raise ValueError
  /\ Core.collect_stats_with sqrt_micro demo_query ["a"%string] 1 0 (1 # 2) = Raise ValueError
  /\ Core.collect_stats_with sqrt_micro demo_query ["a"%string] 1 2 (- (1 # 10))
     = Raise ValueError.
Proof.
  split; [|split].
  - apply (core_collect_stats_rejects_config sqrt_micro demo_query ["a"%string] 0 2 (1 # 2)).
    left. lia.
  - apply (core_collect_stats_rejects_config sqrt_micro demo_query ["a"%string] 1 0 (1 # 2)).
    right. left. unfold Qle. cbn. lia.
  - apply (core_collect_stats_rejects_config sqrt_micro demo_query ["a"%string] 1 2
             (- (1 # 10))).
    right. right. unfold Qlt. cbn. lia.
Defined.

(** C7.  kntp-lib.py, at [timeout = 0] and at [sleep_between = -0.1] with
    [samples = 1]: core.py raises [ValueError]; kntp-lib.py, which checks
    [samples] only, queries the server and returns its entry. *)
Theorem legacy_collect_stats_accepts_bad_timing :
  Core.collect_stats_with sqrt_micro demo_query ["a"%string] 1 0 (1 # 2)
  = Raise ValueError
  /\ summary (Legacy.collect_stats_with sqrt_micro demo_query ["a"%string] 1 0 (1 # 2))
     = Ok [("a"%string, 1, 0)]
  /\ Core.collect_stats_with sqrt_micro demo_query ["a"%string] 1 2 (- (1 # 10))
     = Raise ValueError
  /\ summary (Legacy.collect_stats_with sqrt_micro demo_query ["a"%string] 1 2 (- (1 # 10)))
     = Ok [("a"%string, 1, 0)].
Proof.
  repeat split; vm_compute; reflexivity.
Qed.



(** C8.  kntp-lib.py, at [require_ok_rate = 1.1] and at [-0.1]: core.py
    raises [ValueError]; kntp-lib.py, which has no check of the rate, scans
    the list and returns. *)
Theorem legacy_recommend_accepts_any_rate :
  Core.recommend [] "base" (11 # 10) = Raise ValueError
  /\ Legacy.recommend [] "base" (11 # 10) = Ok None
  /\ Core.recommend test_ranked "base" (- (1 # 10)) = Raise ValueError
  /\ (do r <- Legacy.recommend test_ranked "base" (- (1 # 10));
      Ok (option_map r_server r)) = Ok (Some "low-ok"%string).
Proof.
  repeat split; vm_compute; reflexivity.
Qed.

(* ===================================================================== *)
(** ** The two copies compared *)
(* ===================================================================== *)

(** C9.  The copies are not identical: kntp-lib.py lacks the checks that
    core.py, and the tests of the repository, have.  On a reply in client
    mode core.py refuses the reply and kntp-lib.py returns a sample; on a
    zero timeout core.py raises [ValueError] and kntp-lib.py samples; on an
    attempt that raises [RuntimeError] core.py lets the exception through
    and kntp-lib.py counts a failure; on a negative weight and on a rate
    above 1 core.py raises [ValueError] and kntp-lib.py returns. *)
Theorem copies_differ :
  (Core.query_ntp client_mode_world 0 "time.example" 2 = Raise NTPResponseError
   /\ is_ok (Legacy.query_ntp client_mode_world 0 "time.example" 2) = true)
  /\ (Core.collect_stats sqrt_micro echo_world ["a"%string] 1 0 (1 # 2)
      = Raise ValueError
      /\ is_ok (Legacy.collect_stats sqrt_micro echo_world ["a"%string] 1 0 (1 # 2))
         = true)
  /\ (Core.collect_stats_with sqrt_micro faulty_query ["s1"%string] 2 2 0
      = Raise RuntimeError
      /\ is_ok (Legacy.collect_stats_with sqrt_micro faulty_query ["s1"%string] 2 2 0)
         = true)
  /\ (Core.rank_servers test_stats "base" (- (1 # 10)) (5 # 10) (Some 100%Q) true
      = Raise ValueError
      /\ is_ok (Legacy.rank_servers test_stats "base" (- (1 # 10)) (5 # 10)
                  (Some 100%Q) true) = true)
  /\ (Core.recommend [] "base" (11 # 10) = Raise ValueError
      /\ Legacy.recommend [] "base" (11 # 10) = Ok None).
Proof.
  repeat split; vm_compute; reflexivity.
Qed.



(* ===================================================================== *)
(** ** The request packet *)
(* ===================================================================== *)

Lemma byte_val_of_Z (z : Z) : byte_val (byte_of_Z z) = z mod 256.
Proof.
  unfold byte_val, byte_of_Z.
  pose proof (Z.mod_pos_bound z 256 ltac:(lia)) as Hm.
  destruct (Byte.of_N (Z.to_N (z mod 256))) as [b|] eqn:E.
  - apply Byte.to_of_N in E. rewrite E. lia.
  - apply Byte.of_N_None_iff in E. lia.
Qed.

Lemma be_word_of_bytes4 (v : Z) :
  0 <= v < 2 ^ 32 ->
  byte_val (byte_of_Z (v / 2 ^ 24)) * 2 ^ 24
  + byte_val (byte_of_Z (v / 2 ^ 16)) * 2 ^ 16
  + byte_val (byte_of_Z (v / 2 ^ 8)) * 2 ^ 8
  + byte_val (byte_of_Z v) = v.
Proof.
  intros Hv. rewrite !byte_val_of_Z.
  change (2 ^ 24) with 16777216. change (2 ^ 16) with 65536.
  change (2 ^ 8) with 256. change (2 ^ 32) with 4294967296 in Hv.
  Z.to_euclidean_division_equations. lia.
Qed.

Lemma uint32_ok_range (v : Z) : uint32_ok v = true -> 0 <= v < 2 ^ 32.
Proof.
  unfold uint32_ok. rewrite andb_true_iff, Z.leb_le, Z.ltb_lt. tauto.
Qed.

(** The request is 48 bytes: 0x23 (LI 0, VN 4, mode 3), 39 zero bytes, and
    the two words of the transmit timestamp, big-endian, at bytes 40-47. *)
Theorem request_packet_layout (a b : Z) (ts : list byte) :
  struct_pack_II a b = Ok ts ->
  length (request_packet ts) = 48%nat
  /\ byte_at (request_packet ts) 0 = 35
  /\ (forall i, (1 <= i < 40)%nat -> byte_at (request_packet ts) i = 0)
  /\ be_word_at (request_packet ts) 40 = a
  /\ be_word_at (request_packet ts) 44 = b.
Proof.
  unfold struct_pack_II.
  destruct (uint32_ok a) eqn:Ha; [|discriminate].
  destruct (uint32_ok b) eqn:Hb; [|discriminate].
  cbn [andb]. intros [= <-].
  apply uint32_ok_range in Ha, Hb.
  split; [reflexivity|]. split; [reflexivity|]. split.
  - intros i Hi.
    do 40 (destruct i as [|i]; [first [lia|reflexivity]|]). lia.
  - split; [exact (be_word_of_bytes4 a Ha)|exact (be_word_of_bytes4 b Hb)].
Qed.

Lemma request_packet_layout_witness :
  length (request_packet (be_bytes4 3908988800 ++ be_bytes4 (2 ^ 31))) = 48%nat
  /\ be_word_at (request_packet (be_bytes4 3908988800 ++ be_bytes4 (2 ^ 31))) 40
     = 3908988800.
Proof.
  destruct (request_packet_layout 3908988800 (2 ^ 31)
              (be_bytes4 3908988800 ++ be_bytes4 (2 ^ 31)))
    as (Hlen & _ & _ & Hsec & _).
  - reflexivity.
  - split; [exact Hlen|exact Hsec].
Defined.

(* ===================================================================== *)
(** ** Grades and the configuration of the ranking *)
(* ===================================================================== *)

(** [grade]: A up to 5, B up to 10, C up to 20, D above; each bound belongs
    to the better grade. *)
Theorem core_grade_boundaries :
  (forall s,
      (Core.grade s = Grade_A <-> (s <= 5)%Q)
      /\ (Core.grade s = Grade_B <-> (5 < s)%Q /\ (s <= 10)%Q)
      /\ (Core.grade s = Grade_C <-> (10 < s)%Q /\ (s <= 20)%Q)
      /\ (Core.grade s = Grade_D <-> (20 < s)%Q))
  /\ Core.grade 5 = Grade_A
  /\ Core.grade 10 = Grade_B
  /\ Core.grade 20 = Grade_C
  /\ Core.grade (201 # 10) = Grade_D.
Proof.
  split; [exact grade_cases|]. repeat split.
Qed.

(** core.py: [rank_servers] raises [ValueError] on a negative weight and on
    a threshold that is given and not positive, whatever the stats. *)
Theorem core_rank_servers_rejects_config (stats : list Stats) (base : string)
    (w_delay w_jitter : Q) (max_delay_ms : option Q) (allow_base : bool) :
  (w_delay < 0)%Q \/ (w_jitter < 0)%Q
  \/ (exists m, max_delay_ms = Some m /\ (m <= 0)%Q) ->
  Core.rank_servers stats base w_delay w_jitter max_delay_ms allow_base
  = Raise ValueError.
Proof.
  intros H. unfold Core.rank_servers.
  destruct (Qltb w_delay 0 || Qltb w_jitter 0) eqn:E; [reflexivity|].
  apply orb_false_iff in E. destruct E as [Ed Ej].
  apply Qltb_ge in Ed, Ej. cbn [negb].
  destruct H as [H|[H|(m & -> & H)]].
  - exfalso. exact (Qlt_not_le _ _ H Ed).
  - exfalso. exact (Qlt_not_le _ _ H Ej).
  - apply Qleb_le in H. now rewrite H.
Qed.

Lemma core_rank_servers_rejects_config_witness :
  Core.rank_servers test_stats "base" (- (1 # 10)) (5 # 10) (Some 100%Q) true
  = Raise ValueError
  /\ Core.rank_servers test_stats "base" (2 # 10) (5 # 10) (Some 0%Q) true
     = Raise ValueError.
Proof.
  split.
  - apply (core_rank_servers_rejects_config test_stats "base" (- (1 # 10)) (5 # 10)
             (Some 100%Q) true).
    left. unfold Qlt. cbn. lia.
  - apply (core_rank_servers_rejects_config test_stats "base" (2 # 10) (5 # 10)
             (Some 0%Q) true).
    right. right. exists 0%Q. split; [reflexivity|]. unfold Qle. cbn. lia.
Defined.

(* ===================================================================== *)
(** ** The tests of the repository, on the model *)
(* ===================================================================== *)

Example test_rank_servers_sort_and_filter :
  (do out <- Core.rank_servers test_stats "base" (2 # 10) (5 # 10) (Some 100%Q) true;
   Ok (map r_server out)) = Ok ["fast"; "base"]%string.
Proof. vm_compute. reflexivity. Qed.

Example test_rank_servers_missing_base_raises :
  Core.rank_servers [] "missing" (2 # 10) (5 # 10) (Some 100%Q) true
  = Raise RuntimeError.
Proof. reflexivity. Qed.

Example test_recommend_uses_ok_rate :
  (do best <- Core.recommend test_ranked "base" (8 # 10);
   Ok (option_map r_server best)) = Ok (Some "good"%string).
Proof. vm_compute. reflexivity. Qed.

Example test_collect_stats_counts_failures :
  summary (Core.collect_stats_with sqrt_micro
             (fun k _ _ => match k with
                           | O => Ok (mkSample 1 2)
                           | _ => Raise NTPResponseError
                           end)
             ["s1"%string] 2 2 0)
  = Ok [("s1"%string, 1, 1)].
Proof. vm_compute. reflexivity. Qed.

Example test_collect_stats_does_not_swallow_unexpected_errors :
  Core.collect_stats_with sqrt_micro (fun _ _ _ => Raise RuntimeError)
    ["s1"%string] 1 2 0
  = Raise RuntimeError.
Proof. vm_compute. reflexivity. Qed.

Example test_validate_ntp_response_mode_check :
  Core._validate_ntp_response ([x23; x01] ++ repeat x00 46) 1 2
  = Raise NTPResponseError.
Proof. vm_compute. reflexivity. Qed.

(* ===================================================================== *)
(** ** The pauses between the rounds *)
(* ===================================================================== *)

Lemma pauses_before_last (samples : Z) (sleep_between : Q) (n : nat) :
  Qltb 0 sleep_between = true ->
  forall i, Z.of_nat (i + n) <= samples - 1 ->
            pauses samples sleep_between i n = repeat sleep_between n.
Proof.
  intros Hs. unfold pauses. induction n as [|n IH]; intros i Hi; [reflexivity|].
  cbn [seq flat_map repeat]. rewrite IH by lia. rewrite Hs, andb_true_r.
  replace (Z.of_nat i =? samples - 1) with false
    by (symmetry; apply Z.eqb_neq; lia).
  reflexivity.
Qed.

Lemma pauses_none (samples : Z) (sleep_between : Q) (i n : nat) :
  Qltb 0 sleep_between = false -> pauses samples sleep_between i n = [].
Proof.
  intros Hs. unfold pauses. revert i. induction n as [|n IH]; intros i; [reflexivity|].
  cbn [seq flat_map]. rewrite IH. now rewrite Hs, andb_false_r.
Qed.

Lemma pauses_of_run (samples : Z) (sleep_between : Q) :
  pauses samples sleep_between 0 (Z.to_nat samples)
  = if Qltb 0 sleep_between then repeat sleep_between (Z.to_nat samples - 1) else [].
Proof.
  destruct (Qltb 0 sleep_between) eqn:Hs; [|now apply pauses_none].
  destruct (Z.to_nat samples) as [|n] eqn:En; [reflexivity|].
  replace (S n) with (n + 1)%nat by lia.
  unfold pauses. rewrite seq_app, flat_map_app.
  fold (pauses samples sleep_between 0 n).
  rewrite pauses_before_last by (assumption || lia).
  cbn [seq flat_map Nat.add]. replace (Z.of_nat n =? samples - 1) with true
    by (symmetry; apply Z.eqb_eq; lia).
  cbn [negb andb]. rewrite !app_nil_r. f_equal. lia.
Qed.

(** The sampler pauses [sleep_between] after every round but the last, and
    does not pause at all when [sleep_between] is not positive. *)
Theorem sample_rounds_pauses (query : nat -> string -> result Sample)
    (catches : exn -> bool) (sleep_between : Q) (servers : list string)
    (samples : Z) (st : sampling) :
  sample_rounds query catches sleep_between servers samples = Ok st ->
  slept st
  = if Qltb 0 sleep_between
    then repeat sleep_between (Z.to_nat samples - 1) else [].
Proof.
  unfold sample_rounds. intros H. apply rounds_slept in H.
  rewrite H. cbn [slept app]. apply pauses_of_run.
Qed.

Lemma sample_rounds_pauses_witness :
  match sample_rounds (fun k s => demo_query k s 2) Core.catches (1 # 2) demo_servers 3 with
  | Ok st => slept st = [1 # 2; 1 # 2]%Q
  | Raise _ => False
  end.
Proof.
  destruct (sample_rounds (fun k s => demo_query k s 2) Core.catches (1 # 2)
              demo_servers 3) as [st|e] eqn:E.
  - rewrite (sample_rounds_pauses _ _ _ _ _ _ E). reflexivity.
  - vm_compute in E. discriminate E.
Defined.

(* ===================================================================== *)
(** ** The timestamp of the request *)
(* ===================================================================== *)

Lemma int_of_floor (x : Q) : (0 <= x)%Q -> int_of x = Qfloor x.
Proof.
  destruct x as [n d]. unfold Qle, int_of, Qfloor. cbn. intros H.
  apply Z.quot_div_nonneg; lia.
Qed.

Lemma int_of_ge (x : Q) (n : Z) : (inject_Z n <= x)%Q -> 0 <= n -> n <= int_of x.
Proof.
  intros Hn H0.
  assert (Hx : (0 <= x)%Q).
  { eapply Qle_trans; [|exact Hn]. change 0%Q with (inject_Z 0).
    now rewrite <- Zle_Qle. }
  rewrite (int_of_floor x Hx). rewrite <- (Qfloor_Z n). now apply Qfloor_resp_le.
Qed.

(** [query_ntp] with a clock at or past the end of the NTP era (2^32
    seconds after 1900), or a second or more before its start, raises
    [struct.error] when it packs the request, in both copies and whatever
    the network would answer. *)
Theorem query_ntp_clock_outside_era (x : exchange) :
  x_open x = None ->
  (two32 <= _system_to_ntp (x_t1 x))%Q \/ (_system_to_ntp (x_t1 x) <= -1)%Q ->
  Core.query_exchange x = Raise StructError
  /\ Legacy.query_exchange x = Raise StructError.
Proof.
  intros Hopen Hera.
  assert (Hbad : uint32_ok (req_sec_of (x_t1 x)) = false).
  { unfold uint32_ok, req_sec_of. destruct Hera as [H|H].
    - pose proof (int_of_ge _ (2 ^ 32) H ltac:(lia)) as Hge.
      apply andb_false_iff. right. apply Z.ltb_ge. exact Hge.
    - apply andb_false_iff. left. apply Z.leb_gt.
      destruct (_system_to_ntp (x_t1 x)) as [n d]. unfold int_of, Qle in *.
      cbn in *. 
      assert (n <= - Zpos d) by lia.
      pose proof (Z.quot_le_mono n (- Zpos d) (Zpos d) ltac:(lia) ltac:(lia)) as Hq.
      rewrite Z.quot_opp_l, Z.quot_same in Hq by lia. lia. }
  unfold Core.query_exchange, Legacy.query_exchange, exchange_with, struct_pack_II.
  rewrite Hopen, Hbad. split; reflexivity.
Qed.

Lemma query_ntp_clock_outside_era_witness :
  Core.query_exchange (mkExchange None (2085978496 # 1) (echo_server 0))
  = Raise StructError
  /\ Legacy.query_exchange (mkExchange None (2085978496 # 1) (echo_server 0))
     = Raise StructError.
Proof.
  apply (query_ntp_clock_outside_era (mkExchange None (2085978496 # 1) (echo_server 0))).
  - reflexivity.
  - left. vm_compute. discriminate.
Defined.

(* ===================================================================== *)
(** ** The originate check, byte for byte *)
(* ===================================================================== *)

Lemma byte_of_Z_eq (z : Z) (b : byte) : z mod 256 = byte_val b -> byte_of_Z z = b.
Proof.
  intros H. unfold byte_of_Z. rewrite H. unfold byte_val.
  now rewrite N2Z.id, Byte.of_to_N.
Qed.

(** The four bytes of a word, from the word. *)
Lemma be_bytes4_of_word (b0 b1 b2 b3 : byte) :
  be_bytes4 (byte_val b0 * 2 ^ 24 + byte_val b1 * 2 ^ 16
             + byte_val b2 * 2 ^ 8 + byte_val b3)
  = [b0; b1; b2; b3].
Proof.
  pose proof (byte_val_range b0). pose proof (byte_val_range b1).
  pose proof (byte_val_range b2). pose proof (byte_val_range b3).
  unfold be_bytes4.
  change (2 ^ 24) with 16777216. change (2 ^ 16) with 65536. change (2 ^ 8) with 256.
  repeat f_equal; apply byte_of_Z_eq; Z.to_euclidean_division_equations; lia.
Qed.

Lemma slice_eight (data : list byte) (i : nat) :
  (i + 8 <= length data)%nat ->
  slice data i (i + 8)
  = [nth i data x00; nth (i + 1) data x00; nth (i + 2) data x00;
     nth (i + 3) data x00; nth (i + 4) data x00; nth (i + 5) data x00;
     nth (i + 6) data x00; nth (i + 7) data x00].
Proof.
  intros H. unfold slice. replace (i + 8 - i)%nat with 8%nat by lia.
  replace (i + 1)%nat with (S i) by lia.
  replace (i + 2)%nat with (S (S i)) by lia.
  replace (i + 3)%nat with (S (S (S i))) by lia.
  replace (i + 4)%nat with (S (S (S (S i)))) by lia.
  replace (i + 5)%nat with (S (S (S (S (S i))))) by lia.
  replace (i + 6)%nat with (S (S (S (S (S (S i)))))) by lia.
  replace (i + 7)%nat with (S (S (S (S (S (S (S i))))))) by lia.
  do 8 (rewrite skipn_nth_cons by lia; cbn [firstn]; f_equal).
Qed.

(** Bytes [i .. i+7] are the packed pair [(a, b)] exactly when the two
    words read there are [a] and [b]. *)
Lemma words_iff_bytes (data : list byte) (i : nat) (a b : Z) :
  (i + 8 <= length data)%nat ->
  0 <= a < 2 ^ 32 -> 0 <= b < 2 ^ 32 ->
  (be_word_at data i = a /\ be_word_at data (i + 4) = b)
  <-> slice data i (i + 8) = be_bytes4 a ++ be_bytes4 b.
Proof.
  intros Hlen Ha Hb. rewrite slice_eight by exact Hlen. split.
  - intros [<- <-]. unfold be_word_at, byte_at.
    rewrite !be_bytes4_of_word.
    replace (i + 4 + 1)%nat with (i + 5)%nat by lia.
    replace (i + 4 + 2)%nat with (i + 6)%nat by lia.
    replace (i + 4 + 3)%nat with (i + 7)%nat by lia.
    reflexivity.
  - unfold be_bytes4. cbn [app]. intros [= H0 H1 H2 H3 H4 H5 H6 H7].
    unfold be_word_at, byte_at.
    replace (i + 4 + 1)%nat with (i + 5)%nat by lia.
    replace (i + 4 + 2)%nat with (i + 6)%nat by lia.
    replace (i + 4 + 3)%nat with (i + 7)%nat by lia.
    rewrite H0, H1, H2, H3, H4, H5, H6, H7.
    split; apply be_word_of_bytes4; assumption.
Qed.

(** core.py accepts a reply of 48 bytes or more exactly when its mode is 4,
    its leap indicator is not 3, its stratum is not 0, and its bytes 24-31
    are, byte for byte, the bytes 40-47 of the request that was sent. *)
Theorem validation_accepts_echo (data ts : list byte) (sec frac : Z) :
  struct_pack_II sec frac = Ok ts ->
  (48 <= length data)%nat ->
  Core._validate_ntp_response data sec frac = Ok tt
  <-> mode_field data = 4 /\ leap_field data <> 3 /\ stratum_field data <> 0
      /\ slice data 24 32 = slice (request_packet ts) 40 48.
Proof.
  unfold struct_pack_II.
  destruct (uint32_ok sec) eqn:Hs; [|discriminate].
  destruct (uint32_ok frac) eqn:Hf; [|discriminate].
  cbn [andb]. intros Hts Hlen.
  assert (ts = be_bytes4 sec ++ be_bytes4 frac) by congruence. subst ts. clear Hts.
  apply uint32_ok_range in Hs, Hf.
  assert (Hreq : slice (request_packet (be_bytes4 sec ++ be_bytes4 frac)) 40 48
                 = be_bytes4 sec ++ be_bytes4 frac) by reflexivity.
  rewrite Hreq.
  change (slice data 24 32) with (slice data 24 (24 + 8)).
  rewrite <- (words_iff_bytes data 24 sec frac) by (assumption || lia).
  change (24 + 4)%nat with 28%nat.
  rewrite validate_unfold.
  replace (48 <=? length data)%nat with true by (symmetry; now apply Nat.leb_le).
  destruct (Z.eqb_spec (mode_field data) 4) as [Hm|Hm];
  destruct (Z.eqb_spec (leap_field data) 3) as [Hl|Hl];
  destruct (Z.eqb_spec (stratum_field data) 0) as [Hst|Hst];
  destruct (Z.eqb_spec (be_word_at data 24) sec) as [Ho|Ho];
  destruct (Z.eqb_spec (be_word_at data 28) frac) as [Hr|Hr];
  cbn [negb andb]; split; intros H; try discriminate H; try reflexivity;
    try (repeat split; assumption);
    destruct H as (H1 & H2 & H3 & H4 & H5); contradiction.
Qed.

Lemma validation_accepts_echo_witness :
  Core._validate_ntp_response
    (echo_reply (request_packet (be_bytes4 (req_sec_of noon) ++ be_bytes4 (req_frac_of noon))))
    (req_sec_of noon) (req_frac_of noon) = Ok tt
  <-> mode_field (echo_reply (request_packet
                    (be_bytes4 (req_sec_of noon) ++ be_bytes4 (req_frac_of noon)))) = 4
      /\ leap_field (echo_reply (request_packet
                    (be_bytes4 (req_sec_of noon) ++ be_bytes4 (req_frac_of noon)))) <> 3
      /\ stratum_field (echo_reply (request_packet
                    (be_bytes4 (req_sec_of noon) ++ be_bytes4 (req_frac_of noon)))) <> 0
      /\ slice (echo_reply (request_packet
                    (be_bytes4 (req_sec_of noon) ++ be_bytes4 (req_frac_of noon)))) 24 32
         = slice (request_packet
                    (be_bytes4 (req_sec_of noon) ++ be_bytes4 (req_frac_of noon))) 40 48.
Proof.
  apply (validation_accepts_echo _
           (be_bytes4 (req_sec_of noon) ++ be_bytes4 (req_frac_of noon))).
  - vm_compute. reflexivity.
  - vm_compute. lia.
Defined.

(* ===================================================================== *)
(** ** More on the sampling run *)
(* ===================================================================== *)

Lemma in_outcomes_server (query : nat -> string -> result Sample)
    (sched : list string) (k : nat) (s : string) (r : result Sample) :
  In (s, r) (outcomes query k sched) -> In s sched.
Proof.
  intros H. rewrite <- (outcomes_servers query k sched).
  change s with (fst (s, r)). now apply in_map.
Qed.

Lemma first_uncaught_none (catches : exn -> bool)
    (tr : list (string * result Sample)) :
  (forall s e, In (s, Raise e) tr -> catches e = true) ->
  first_uncaught catches tr = None.
Proof.
  induction tr as [|[s [v|e]] tr IH]; intros H; [reflexivity| |].
  - cbn [first_uncaught]. apply IH. intros s0 e0 H0. apply (H s0). now right.
  - cbn [first_uncaught]. rewrite (H s e) by now left.
    apply IH. intros s0 e0 H0. apply (H s0). now right.
Qed.

Lemma successes_none (s : string) (tr : list (string * result Sample)) :
  (forall s' v, ~ In (s', Ok v) tr) -> successes_of s tr = [].
Proof.
  induction tr as [|[s' [v|e]] tr IH]; intros H; [reflexivity| |].
  - exfalso. apply (H s' v). now left.
  - rewrite successes_raise. apply IH. intros s0 v0 H0. apply (H s0 v0). now right.
Qed.

Lemma filter_none {T : Type} (f : T -> bool) (l : list T) :
  (forall x, In x l -> f x = false) -> List.filter f l = [].
Proof.
  induction l as [|x l IH]; intros H; [reflexivity|].
  cbn [List.filter]. rewrite (H x) by now left.
  apply IH. intros y Hy. apply H. now right.
Qed.

(** core.py: when every attempt fails with an exception that the sampler
    catches (no server answers), [collect_stats] returns the empty list; so
    it does on an empty list of servers. *)
Theorem collect_stats_all_attempts_fail (sqrt : Q -> Q)
    (query : nat -> string -> Q -> result Sample)
    (servers : list string) (samples : Z) (timeout sleep_between : Q) :
  1 <= samples -> (0 < timeout)%Q -> (0 <= sleep_between)%Q ->
  (forall k s, In s servers ->
               exists e, query k s timeout = Raise e /\ Core.catches e = true) ->
  Core.collect_stats_with sqrt query servers samples timeout sleep_between = Ok [].
Proof.
  intros Hs Ht Hsl Hall. rewrite core_collect_stats_unfold.
  apply Z.ltb_ge in Hs. apply Qleb_gt in Ht. apply Qltb_ge in Hsl.
  rewrite Hs, Ht, Hsl. cbn [orb].
  set (tr := outcomes _ 0 _).
  assert (Hraise : forall s r, In (s, r) tr ->
            exists e, r = Raise e /\ Core.catches e = true).
  { intros s r Hin. pose proof (in_outcomes_server _ _ _ _ _ Hin) as Hsrv.
    apply in_schedule in Hsrv. apply in_outcomes in Hin. destruct Hin as [k' ->].
    exact (Hall k' s Hsrv). }
  rewrite first_uncaught_none.
  - unfold expected_stats. f_equal.
    replace (List.filter (has_success tr) servers) with (@nil string); [reflexivity|].
    symmetry. apply filter_none. intros s _. unfold has_success.
    rewrite successes_none; [reflexivity|].
    intros s' v Hin. destruct (Hraise _ _ Hin) as (e & He & _). discriminate He.
  - intros s e Hin. destruct (Hraise _ _ Hin) as (e' & [= ->] & Hc). exact Hc.
Qed.

Lemma collect_stats_all_attempts_fail_witness :
  Core.collect_stats_with sqrt_micro (fun _ _ _ => Raise SocketTimeout) demo_servers
    3 2 (1 # 2) = Ok []
  /\ Core.collect_stats_with sqrt_micro always_ok [] 3 2 (1 # 2) = Ok [].
Proof.
  split.
  - apply (collect_stats_all_attempts_fail sqrt_micro (fun _ _ _ => Raise SocketTimeout)
             demo_servers 3 2 (1 # 2)).
    + lia.
    + reflexivity.
    + discriminate.
    + intros k s _. exists SocketTimeout. split; reflexivity.
  - apply (collect_stats_all_attempts_fail sqrt_micro always_ok [] 3 2 (1 # 2)).
    + lia.
    + reflexivity.
    + discriminate.
    + intros k s [].
Defined.

(** core.py, for any list of servers: every emitted entry has
    [ok + fail = samples * c], with [c] the number of times its server
    stands in the list, since the samples of a repeated name are pooled. *)
Theorem collect_stats_ok_plus_fail_repeated (sqrt : Q -> Q)
    (query : nat -> string -> Q -> result Sample)
    (servers : list string) (samples : Z) (timeout sleep_between : Q)
    (out : list Stats) :
  Core.collect_stats_with sqrt query servers samples timeout sleep_between = Ok out ->
  Forall (fun x => ok x + fail x
                   = samples * Z.of_nat (occurrences (server x) servers)) out.
Proof.
  intros H. apply core_collect_stats_ok in H. destruct H as (Hs & Hnone & ->).
  unfold expected_stats. apply List.Forall_forall. intros x Hx.
  apply in_map_iff in Hx. destruct Hx as (s & <- & _).
  cbn [entry_of ok fail server].
  rewrite successes_plus_failures by assumption.
  rewrite outcomes_servers, occurrences_schedule. lia.
Qed.

Lemma collect_stats_ok_plus_fail_repeated_witness :
  exists out,
    Core.collect_stats_with sqrt_micro always_ok ["a"; "a"]%string 3 2 0 = Ok out
    /\ Forall (fun x => ok x + fail x
                        = 3 * Z.of_nat (occurrences (server x) ["a"; "a"]%string)) out.
Proof.
  eexists. split; [vm_compute; reflexivity|].
  apply (collect_stats_ok_plus_fail_repeated sqrt_micro always_ok ["a"; "a"]%string
           3 2 0).
  vm_compute. reflexivity.
Defined.

Section AttemptCount.

Variable query : nat -> string -> result Sample.
Variable catches : exn -> bool.
Variable sleep_between : Q.

Lemma attempt_count (s : string) (st st' : sampling) :
  attempt query catches s st = Ok st' -> attempts st' = S (attempts st).
Proof.
  unfold attempt.
  destruct (getitem (raw st) s) as [l|e]; cbn [bind].
  - destruct (query (attempts st) s) as [v|e]; cbn [bind].
    + now intros [= <-].
    + destruct (catches e); [|discriminate].
      destruct (getitem (fails st) s); cbn [bind]; [now intros [= <-]|discriminate].
  - destruct (catches e); [|discriminate].
    destruct (getitem (fails st) s); cbn [bind]; [now intros [= <-]|discriminate].
Qed.

Lemma for_each_attempt_count (l : list string) :
  forall st st',
    for_each (attempt query catches) l st = Ok st' ->
    attempts st' = (attempts st + length l)%nat.
Proof.
  induction l as [|s l IH]; intros st st'; cbn [for_each length].
  - intros [= <-]. lia.
  - destruct (attempt query catches s st) as [st1|e] eqn:E; cbn [bind]; [|discriminate].
    intros H. rewrite (IH _ _ H), (attempt_count _ _ _ E). lia.
Qed.

Lemma rounds_count (servers : list string) (samples : Z) (n : nat) :
  forall i st st',
    for_range (round query catches sleep_between servers samples) i n st = Ok st' ->
    attempts st' = (attempts st + n * length servers)%nat.
Proof.
  induction n as [|n IH]; intros i st st'; cbn [for_range].
  - intros [= <-]. lia.
  - unfold round at 1.
    destruct (for_each (attempt query catches) servers st) as [st1|e] eqn:E;
      cbn [bind]; [|discriminate].
    apply for_each_attempt_count in E.
    destruct (negb (Z.of_nat i =? samples - 1) && Qltb 0 sleep_between);
      cbn [bind]; intros H; apply IH in H; rewrite H; cbn [attempts]; lia.
Qed.

End AttemptCount.

(** When the rounds of [collect_stats] complete, exactly
    [samples * len(servers)] queries have been made, in either copy. *)
Theorem sample_rounds_attempts (query : nat -> string -> result Sample)
    (catches : exn -> bool) (sleep_between : Q) (servers : list string)
    (samples : Z) (st : sampling) :
  sample_rounds query catches sleep_between servers samples = Ok st ->
  attempts st = (Z.to_nat samples * length servers)%nat.
Proof.
  unfold sample_rounds. intros H. apply rounds_count in H. exact H.
Qed.

Lemma sample_rounds_attempts_witness :
  match sample_rounds (fun k s => demo_query k s 2) Core.catches (1 # 2) demo_servers 3 with
  | Ok st => attempts st = 9%nat
  | Raise _ => False
  end.
Proof.
  destruct (sample_rounds (fun k s => demo_query k s 2) Core.catches (1 # 2)
              demo_servers 3) as [st|e] eqn:E.
  - rewrite (sample_rounds_attempts _ _ _ _ _ _ E). reflexivity.
  - vm_compute in E. discriminate E.
Defined.

(* ===================================================================== *)
(** ** kntp-lib.py as it behaves *)
(* ===================================================================== *)

(** kntp-lib.py: with [samples >= 1], whatever [timeout] and
    [sleep_between], [collect_stats] returns as long as the attempts raise
    nothing but subclasses of [Exception]: every such failure is counted
    against its server. *)
Theorem legacy_collect_stats_absorbs_exceptions (sqrt : Q -> Q)
    (query : nat -> string -> Q -> result Sample)
    (servers : list string) (samples : Z) (timeout sleep_between : Q) :
  1 <= samples ->
  (forall k s e, query k s timeout = Raise e -> is_Exception e = true) ->
  Legacy.collect_stats_with sqrt query servers samples timeout sleep_between
  = Ok (expected_stats sqrt is_Exception servers
          (outcomes (fun k s => query k s timeout) 0
             (schedule servers (Z.to_nat samples)))).
Proof.
  intros Hs Hexc. unfold Legacy.collect_stats_with.
  apply Z.ltb_ge in Hs. rewrite Hs. cbn [negb].
  rewrite sample_and_aggregate_run.
  rewrite first_uncaught_none; [reflexivity|].
  intros s e Hin. apply in_outcomes in Hin. destruct Hin as [k' Hk'].
  symmetry in Hk'. exact (Hexc _ _ _ Hk').
Qed.

Lemma legacy_collect_stats_absorbs_exceptions_witness :
  Legacy.collect_stats_with sqrt_micro faulty_query ["s1"%string] 2 0 (- (1 # 2))
  = Ok (expected_stats sqrt_micro is_Exception ["s1"%string]
          (outcomes (fun k s => faulty_query k s 0) 0
             (schedule ["s1"%string] (Z.to_nat 2)))).
Proof.
  apply (legacy_collect_stats_absorbs_exceptions sqrt_micro faulty_query
           ["s1"%string] 2 0 (- (1 # 2))).
  - lia.
  - intros k s e H. unfold faulty_query in H.
    destruct k; [discriminate H|]. now injection H as <-.
Defined.

(** kntp-lib.py, in the arithmetic of the code (binary64): [query_ntp]
    turns every datagram of 48 bytes or more into a sample, computed from
    bytes 32-47 alone by the four-timestamp equations, and raises
    [ValueError] on a shorter one; mode, leap indicator, stratum and
    originate timestamp have no part in it. *)
Theorem legacy_query_reads_any_datagram
    (w : Binary64.world) (k : nat) (host : string) (timeout : float)
    (req_sec req_frac : Z) (ts data : list byte) (T4 : float) :
  let x := w k host timeout in
  let T1 := Binary64.x_t1 x in
  let T2 := Binary64.unix_time_at data 32 in
  let T3 := Binary64.unix_time_at data 40 in
  Binary64.x_open x = None ->
  Binary64.req_sec_of T1 = Ok req_sec ->
  Binary64.req_frac_of T1 req_sec = Ok req_frac ->
  struct_pack_II req_sec req_frac = Ok ts ->
  Binary64.x_net x (request_packet ts) = Binary64.Recv data T4 ->
  Binary64.Legacy.query_ntp w k host timeout
  = if (48 <=? length data)%nat
    then Ok {| Binary64.offset_ms := (((T2 - T1) + (T3 - T4)) / 2 * 1000)%float;
               Binary64.delay_ms := (((T4 - T1) - (T3 - T2)) * 1000)%float |}
    else Raise ValueError.
Proof.
  intros x T1 T2 T3 Hopen Hsec Hfrac Hpack Hnet.
  unfold Binary64.Legacy.query_ntp, Binary64.Legacy.query_exchange,
    Binary64.exchange_with.
  fold x. rewrite Hopen. fold T1. rewrite Hsec. cbn [bind].
  rewrite Hfrac. cbn [bind]. rewrite Hpack. cbn [bind].
  rewrite Hnet. unfold Binary64.Legacy.on_response.
  destruct (Nat.leb_spec 48 (length data)) as [Hlen|Hlen]; [|reflexivity].
  now apply b64_sample_of_equations.
Qed.

Lemma legacy_query_reads_any_datagram_witness :
  mode_field (client_mode_reply b64_request) = 3
  /\ Binary64.Legacy.query_ntp b64_client_mode_world 0 "time.example" 2
     = if (48 <=? length (client_mode_reply b64_request))%nat
       then Ok {| Binary64.offset_ms :=
                    (((Binary64.unix_time_at (client_mode_reply b64_request) 32
                       - b64_t1)
                      + (Binary64.unix_time_at (client_mode_reply b64_request) 40
                         - 1700000002)) / 2 * 1000)%float;
                  Binary64.delay_ms :=
                    (((1700000002 - b64_t1)
                      - (Binary64.unix_time_at (client_mode_reply b64_request) 40
                         - Binary64.unix_time_at (client_mode_reply b64_request) 32))
                     * 1000)%float |}
       else Raise ValueError.
Proof.
  split; [reflexivity|].
  apply (legacy_query_reads_any_datagram b64_client_mode_world 0 "time.example" 2
           3908988800 4096 (be_bytes4 3908988800 ++ be_bytes4 4096)
           (client_mode_reply b64_request) 1700000002).
  - reflexivity.
  - vm_compute. reflexivity.
  - vm_compute. reflexivity.
  - reflexivity.
  - reflexivity.
Defined.

(* ===================================================================== *)
(** ** What [rank_servers] returns *)
(* ===================================================================== *)

(** When core.py's [rank_servers] returns, the configuration was valid, the
    baseline was found, and the list is the sorted list of the candidates. *)
Lemma core_rank_ok_inv (stats : list Stats) (base : string)
    (w_delay w_jitter : Q) (max_delay_ms : option Q) (allow_base : bool)
    (out : list Ranked) :
  Core.rank_servers stats base w_delay w_jitter max_delay_ms allow_base = Ok out ->
  valid_ranking w_delay w_jitter max_delay_ms
  /\ exists b,
       find_base stats base = Some b
       /\ out = sort_by_score
                  (map (ranked_of Core.grade w_delay w_jitter b)
                     (List.filter (is_candidate base max_delay_ms allow_base) stats)).
Proof.
  unfold Core.rank_servers.
  destruct (Qltb w_delay 0) eqn:Ed; [discriminate|].
  destruct (Qltb w_jitter 0) eqn:Ej; [discriminate|]. cbn [orb negb].
  apply Qltb_ge in Ed, Ej.
  assert (Hm : match max_delay_ms with Some m => Qleb m 0 | None => false end = false ->
               match max_delay_ms with Some m => (0 < m)%Q | None => True end).
  { destruct max_delay_ms as [m|]; [apply Qleb_gt|trivial]. }
  destruct (match max_delay_ms with Some m => Qleb m 0 | None => false end);
    [discriminate|]. cbn [negb].
  unfold rank_from. destruct (find_base stats base) as [b|]; [|discriminate].
  rewrite rank_loop. cbn [app]. intros [= <-].
  split.
  - unfold valid_ranking. split; [exact Ed|]. split; [exact Ej|]. now apply Hm.
  - exists b. split; reflexivity.
Qed.

(** core.py: a list that [rank_servers] returns is no longer than the
    stats; each of its entries copies the name, the counts and the delay of
    an entry of the stats; none has an average delay at or above a given
    [max_delay_ms]; and none is the baseline when [allow_base] is false. *)
Theorem rank_servers_output_bounds (stats : list Stats) (base : string)
    (w_delay w_jitter : Q) (max_delay_ms : option Q) (allow_base : bool)
    (out : list Ranked) :
  Core.rank_servers stats base w_delay w_jitter max_delay_ms allow_base = Ok out ->
  (length out <= length stats)%nat
  /\ Forall (fun r =>
               (exists st, In st stats /\ r_server r = server st
                           /\ r_ok r = ok st /\ r_fail r = fail st
                           /\ r_avg_delay_ms r = avg_delay_ms st)
               /\ (allow_base = false -> r_server r <> base)
               /\ (forall m, max_delay_ms = Some m -> (r_avg_delay_ms r < m)%Q)) out.
Proof.
  intros H. apply core_rank_ok_inv in H. destruct H as (_ & b & _ & ->).
  split.
  - rewrite (Permutation_length (sort_by_score_perm _)), length_map.
    apply filter_length_le.
  - apply (@Permutation_Forall _ _
             (map (ranked_of Core.grade w_delay w_jitter b)
                (List.filter (is_candidate base max_delay_ms allow_base) stats))).
    + symmetry. apply sort_by_score_perm.
    + apply List.Forall_forall. intros r Hr. apply in_map_iff in Hr.
      destruct Hr as (st & <- & Hst). apply filter_In in Hst.
      destruct Hst as [Hin Hc]. apply is_candidate_iff in Hc. destruct Hc as [Hb Hd].
      cbn [ranked_of r_server r_ok r_fail r_avg_delay_ms]. split.
      * exists st. repeat split. exact Hin.
      * split; [|exact Hd]. intros ->. destruct Hb as [Hb|Hb]; [discriminate|exact Hb].
Qed.

Lemma rank_servers_output_bounds_witness :
  exists out,
    Core.rank_servers test_stats "base" (2 # 10) (5 # 10) (Some 100%Q) false = Ok out
    /\ (length out <= length test_stats)%nat
    /\ Forall (fun r => r_server r <> "base"%string /\ (r_avg_delay_ms r < 100)%Q) out.
Proof.
  eexists. split; [vm_compute; reflexivity|].
  destruct (rank_servers_output_bounds test_stats "base" (2 # 10) (5 # 10)
              (Some 100%Q) false _ eq_refl) as [Hlen Hall].
  split; [exact Hlen|].
  eapply List.Forall_impl; [|exact Hall].
  intros r (_ & Hb & Hd). split; [now apply Hb|now apply Hd].
Defined.

(** core.py: when the stats have no negative average delay and no negative
    jitter, every score that [rank_servers] returns is at least the
    distance to the baseline, [|vs_base_ms|], hence not negative. *)
Theorem rank_servers_scores_nonneg (stats : list Stats) (base : string)
    (w_delay w_jitter : Q) (max_delay_ms : option Q) (allow_base : bool)
    (out : list Ranked) :
  Forall (fun st => (0 <= avg_delay_ms st)%Q /\ (0 <= std_offset_ms st)%Q) stats ->
  Core.rank_servers stats base w_delay w_jitter max_delay_ms allow_base = Ok out ->
  Forall (fun r => (Qabs (vs_base_ms r) <= score r)%Q /\ (0 <= score r)%Q) out.
Proof.
  intros Hpos H. apply core_rank_ok_inv in H.
  destruct H as ((Hd & Hj & _) & b & _ & ->).
  apply (@Permutation_Forall _ _
           (map (ranked_of Core.grade w_delay w_jitter b)
              (List.filter (is_candidate base max_delay_ms allow_base) stats))).
  - symmetry. apply sort_by_score_perm.
  - apply List.Forall_forall. intros r Hr. apply in_map_iff in Hr.
    destruct Hr as (st & <- & Hst). apply filter_In in Hst. destruct Hst as [Hin _].
    rewrite List.Forall_forall in Hpos. destruct (Hpos st Hin) as [Hdel Hstd].
    cbn [ranked_of vs_base_ms score].
    pose proof (Qabs_nonneg (avg_offset_ms st - avg_offset_ms b)) as Habs.
    pose proof (Qmult_le_0_compat _ _ Hd Hdel) as H1.
    pose proof (Qmult_le_0_compat _ _ Hj Hstd) as H2.
    split; lra.
Qed.

Lemma rank_servers_scores_nonneg_witness :
  exists out,
    Core.rank_servers test_stats "base" (2 # 10) (5 # 10) (Some 100%Q) true = Ok out
    /\ Forall (fun r => (Qabs (vs_base_ms r) <= score r)%Q /\ (0 <= score r)%Q) out.
Proof.
  eexists. split; [vm_compute; reflexivity|].
  apply (rank_servers_scores_nonneg test_stats "base" (2 # 10) (5 # 10)
           (Some 100%Q) true).
  - unfold test_stats. repeat constructor; cbn; discriminate.
  - vm_compute. reflexivity.
Defined.

(* ===================================================================== *)
(** ** What [recommend] returns *)
(* ===================================================================== *)


Lemma scan_none (base : string) (rate : Q) (ranked : list Ranked) :
  scan base rate ranked = None <-> Forall (fun y => passes base rate y = false) ranked.
Proof.
  induction ranked as [|r l IH]; [split; [constructor|reflexivity]|].
  cbn [scan]. unfold passes in *.
  destruct (String.eqb (r_server r) base) eqn:Eb; cbn [negb andb].
  - rewrite IH. split; [intros H; constructor; [now rewrite Eb|exact H]|].
    intros H. now inversion H.
  - destruct (Qleb rate (ok_rate_of r)) eqn:Er.
    + split; [discriminate|]. intros H. inversion H as [|? ? Hr _]; subst.
      rewrite Eb, Er in Hr. discriminate Hr.
    + rewrite IH. split; [intros H; constructor; [now rewrite Eb, Er|exact H]|].
      intros H. now inversion H.
Qed.









Lemma ok_rate_of_range (r : Ranked) :
  0 <= r_ok r -> 0 <= r_fail r -> (0 <= ok_rate_of r)%Q /\ (ok_rate_of r <= 1)%Q.
Proof.
  intros Hok Hfail. unfold ok_rate_of.
  destruct (Z.ltb_spec 0 (r_ok r + r_fail r)) as [Ht|Ht]; [|split; discriminate].
  assert (Hp : (0 < inject_Z (r_ok r + r_fail r))%Q).
  { change 0%Q with (inject_Z 0). now rewrite <- Zlt_Qlt. }
  split.
  - apply Qle_shift_div_l; [exact Hp|]. rewrite Qmult_0_l.
    change 0%Q with (inject_Z 0). now rewrite <- Zle_Qle.
  - apply Qle_shift_div_r; [exact Hp|]. rewrite Qmult_1_l.
    rewrite <- Zle_Qle. lia.
Qed.

(** kntp-lib.py, which does not check the rate: on entries with counts that
    are not negative, [recommend] returns [None] for every rate above 1 and
    the first entry that is not the baseline for every rate of 0 or less. *)
Theorem legacy_recommend_outside_range (ranked : list Ranked) (base : string)
    (require_ok_rate : Q) :
  Forall (fun r => 0 <= r_ok r /\ 0 <= r_fail r) ranked ->
  ((1 < require_ok_rate)%Q ->
   Legacy.recommend ranked base require_ok_rate = Ok None)
  /\ ((require_ok_rate <= 0)%Q ->
      Legacy.recommend ranked base require_ok_rate
      = Ok (List.find (fun r => negb (String.eqb (r_server r) base)) ranked)).
Proof.
  intros Hpos. unfold Legacy.recommend. split; intros Hr; f_equal.
  - apply scan_none. apply List.Forall_forall. intros y Hy.
    rewrite List.Forall_forall in Hpos. destruct (Hpos y Hy) as [Hok Hfail].
    destruct (ok_rate_of_range y Hok Hfail) as [_ Hle].
    unfold passes. apply andb_false_iff. right. apply Qleb_gt. lra.
  - induction Hpos as [|r l [Hok Hfail] _ IH]; [reflexivity|].
    cbn [scan find]. rewrite IH.
    destruct (String.eqb (r_server r) base); cbn [negb]; [reflexivity|].
    destruct (ok_rate_of_range r Hok Hfail) as [Hge _].
    replace (Qleb require_ok_rate (ok_rate_of r)) with true; [reflexivity|].
    symmetry. apply Qleb_le. lra.
Qed.

Lemma legacy_recommend_outside_range_witness :
  Legacy.recommend test_ranked "base" 2 = Ok None
  /\ Legacy.recommend test_ranked "base" (- (1))
     = Ok (List.find (fun r => negb (String.eqb (r_server r) "base")) test_ranked).
Proof.
  destruct (legacy_recommend_outside_range test_ranked "base" 2) as [H1 _].
  { unfold test_ranked. repeat constructor; cbn; lia. }
  destruct (legacy_recommend_outside_range test_ranked "base" (- (1))) as [_ H2].
  { unfold test_ranked. repeat constructor; cbn; lia. }
  split; [apply H1; reflexivity|apply H2; discriminate].
Defined.

(* ===================================================================== *)
(** ** The table *)
(* ===================================================================== *)

Lemma length_append (a b : string) :
  String.length (String.append a b) = (String.length a + String.length b)%nat.
Proof.
  induction a as [|c a IH]; [reflexivity|].
  change (S (String.length (String.append a b))
          = S (String.length a + String.length b)). now rewrite IH.
Qed.

Lemma length_repeat_char (c : ascii) (n : nat) : String.length (repeat_char c n) = n.
Proof.
  induction n as [|n IH]; [reflexivity|].
  change (S (String.length (repeat_char c n)) = S n). now rewrite IH.
Qed.

Lemma ljust_length (w : nat) (s : string) :
  (String.length s <= w)%nat -> String.length (ljust w s) = w.
Proof.
  intros H. unfold ljust. rewrite length_append, length_repeat_char. lia.
Qed.

Lemma rjust_length (w : nat) (s : string) :
  (String.length s <= w)%nat -> String.length (rjust w s) = w.
Proof.
  intros H. unfold rjust. rewrite length_append, length_repeat_char. lia.
Qed.

Lemma fits_below_spec (w fuel : nat) :
  forall z, fits_below w fuel z = true ->
            forall k, z <= k < z + Z.of_nat fuel ->
                      (String.length (str_of_int k) <= w)%nat.
Proof.
  induction fuel as [|f IH]; intros z H k Hk; [lia|].
  cbn [fits_below] in H. apply andb_true_iff in H. destruct H as [Hz Hrest].
  destruct (Z.eq_dec k z) as [->|Hne].
  - now apply Nat.leb_le.
  - apply (IH (z + 1) Hrest). lia.
Qed.

Lemma str_of_int_width2 (k : Z) :
  0 <= k <= 99 -> (String.length (str_of_int k) <= 2)%nat.
Proof.
  intros H. apply (fits_below_spec 2 100 0); [vm_compute; reflexivity|lia].
Qed.

Lemma str_of_int_width4 (k : Z) :
  0 <= k <= 9999 -> (String.length (str_of_int k) <= 4)%nat.
Proof.
  intros H. apply (fits_below_spec 4 (Z.to_nat 10000) 0); [vm_compute; reflexivity|lia].
Qed.

Lemma str_of_int_width5 (k : Z) :
  0 <= k <= 99999 -> (String.length (str_of_int k) <= 5)%nat.
Proof.
  intros H. apply (fits_below_spec 5 (Z.to_nat 100000) 0); [vm_compute; reflexivity|lia].
Qed.

Lemma table_row_length (fixed2 : Q -> string) (idx : Z) (item : Ranked) :
  0 <= idx <= 9999 -> fits_columns fixed2 item ->
  String.length (table_row fixed2 idx item) = 75%nat.
Proof.
  intros Hidx (Hs & Hsc & Hvs & Hd & Hok & Hfail).
  unfold table_row, concat_str. cbn [fold_right].
  rewrite !length_append.
  assert (Hg : (String.length (grade_str (r_grade item)) <= 5)%nat)
    by (destruct (r_grade item); cbn; lia).
  rewrite !ljust_length, !rjust_length;
    auto using str_of_int_width2, str_of_int_width4, str_of_int_width5.
Qed.

Lemma table_rows_length (fixed2 : Q -> string) (rows : list Ranked) :
  forall idx,
    0 <= idx -> idx + Z.of_nat (length rows) <= 10000 ->
    Forall (fits_columns fixed2) rows ->
    Forall (fun line => String.length line = 75%nat) (table_rows fixed2 idx rows).
Proof.
  induction rows as [|item rows IH]; intros idx H0 H1 Hfit; [constructor|].
  cbn [table_rows length] in *. inversion Hfit as [|? ? Hitem Hrest]; subst.
  constructor.
  - apply table_row_length; [lia|exact Hitem].
  - apply IH; [lia|lia|exact Hrest].
Qed.

(** The table is aligned: when there are fewer than 10,000 rows and every
    field fits its column (a server name of at most 22 characters, a score,
    a distance and a delay that print in at most 8, 12 and 10 characters,
    at most 99 successes and 99,999 failures), each line of the table, the
    header and the rule included, is 75 characters long. *)
Theorem table_lines_aligned (fixed2 : Q -> string) (rows : list Ranked) :
  Z.of_nat (length rows) <= 9999 ->
  Forall (fits_columns fixed2) rows ->
  Forall (fun line => String.length line = 75%nat) (table_lines fixed2 rows).
Proof.
  intros Hlen Hfit. unfold table_lines.
  constructor; [reflexivity|]. constructor; [apply length_repeat_char|].
  apply table_rows_length; [lia|lia|exact Hfit].
Qed.

Lemma table_lines_aligned_witness :
  Forall (fun line => String.length line = 75%nat)
    (table_lines (fun _ => "0.00"%string) test_ranked).
Proof.
  apply (table_lines_aligned (fun _ => "0.00"%string) test_ranked).
  - cbn. lia.
  - unfold test_ranked, fits_columns. repeat constructor; cbn; lia.
Defined.

Lemma table_starts_with_r (fixed2 : Q -> string) (item : Ranked) (rest : list Ranked) :
  exists t, join newline (table_lines fixed2 (item :: rest)) = String "r" t.
Proof.
  unfold table_lines. cbn [table_rows join].
  assert (H : exists t, table_header = String "r" t)
    by (eexists; vm_compute; reflexivity).
  destruct H as [t ->]. cbn [String.append]. eauto.
Qed.

(** [format_ranked_table]: a [top_n] below 1 raises [ValueError], even on an
    empty list; a [top_n] of [n >= 1] gives what the first [n] entries give
    without [top_n]; without [top_n] there is always a result, and it is
    ["(no ranked results)"] exactly when the list is empty. *)
Theorem format_ranked_table_top_n (fixed2 : Q -> string) (ranked : list Ranked) :
  (forall n,
      format_ranked_table fixed2 ranked (Some n)
      = if n <? 1 then Raise ValueError
        else format_ranked_table fixed2 (firstn (Z.to_nat n) ranked) None)
  /\ (exists s, format_ranked_table fixed2 ranked None = Ok s)
  /\ (format_ranked_table fixed2 ranked None = Ok "(no ranked results)"%string
      <-> ranked = []).
Proof.
  split; [|split].
  - intros n. unfold format_ranked_table. destruct (n <? 1); reflexivity.
  - unfold format_ranked_table. cbn [negb]. destruct ranked; eauto.
  - unfold format_ranked_table. cbn [negb]. destruct ranked as [|item rest].
    + split; reflexivity.
    + split; [|discriminate]. intros H.
      destruct (table_starts_with_r fixed2 item rest) as [t Ht].
      rewrite Ht in H. discriminate H.
Qed.

(* ===================================================================== *)
(** ** Sampling, then ranking *)
(* ===================================================================== *)

Lemma expected_stats_servers (sqrt : Q -> Q) (catches : exn -> bool)
    (servers : list string) (tr : list (string * result Sample)) :
  map server (expected_stats sqrt catches servers tr)
  = List.filter (has_success tr) servers.
Proof.
  unfold expected_stats. rewrite map_map. cbn [entry_of server]. apply map_id.
Qed.

Lemma exists_server_iff (stats : list Stats) (base : string) :
  Exists (fun x => server x = base) stats <-> In base (map server stats).
Proof.
  rewrite List.Exists_exists, in_map_iff. split; intros (x & H1 & H2); eauto.
Qed.

Lemma not_exists_forall (stats : list Stats) (base : string) :
  ~ In base (map server stats) -> Forall (fun x => server x <> base) stats.
Proof.
  intros H. apply List.Forall_forall. intros x Hx Hb. apply H.
  apply in_map_iff. eauto.
Qed.

(** core.py: on the statistics of a sampling run, [rank_servers] with valid
    weights and threshold returns a ranking when the baseline is one of the
    servers sampled and answered at least once, and raises [RuntimeError]
    otherwise: a baseline that never answers is dropped from the statistics
    and cannot be ranked against. *)
Theorem ranking_needs_baseline_success (sqrt : Q -> Q)
    (query : nat -> string -> Q -> result Sample)
    (servers : list string) (samples : Z) (timeout sleep_between : Q)
    (stats : list Stats) (base : string)
    (w_delay w_jitter : Q) (max_delay_ms : option Q) (allow_base : bool) :
  let tr := outcomes (fun k s => query k s timeout) 0
              (schedule servers (Z.to_nat samples)) in
  Core.collect_stats_with sqrt query servers samples timeout sleep_between
  = Ok stats ->
  valid_ranking w_delay w_jitter max_delay_ms ->
  (In base servers /\ successes_of base tr <> [] ->
   exists out,
     Core.rank_servers stats base w_delay w_jitter max_delay_ms allow_base = Ok out)
  /\ (~ (In base servers /\ successes_of base tr <> []) ->
      Core.rank_servers stats base w_delay w_jitter max_delay_ms allow_base
      = Raise RuntimeError).
Proof.
  intros tr H Hvalid. apply core_collect_stats_ok in H.
  destruct H as (_ & _ & ->). fold tr.
  rewrite core_rank_checks by exact Hvalid. unfold rank_from.
  assert (Hiff : In base (map server (expected_stats sqrt Core.catches servers tr))
                 <-> In base servers /\ successes_of base tr <> []).
  { rewrite expected_stats_servers, filter_In. unfold has_success.
    destruct (successes_of base tr); split; intros [H1 H2];
      (split; [exact H1|]); congruence. }
  split.
  - intros Hb. apply Hiff, exists_server_iff, find_base_exists in Hb.
    destruct Hb as (b & -> & _). eauto.
  - intros Hb. rewrite find_base_absent; [reflexivity|].
    apply not_exists_forall. intros Hin. apply Hb, Hiff, Hin.
Qed.

Lemma ranking_needs_baseline_success_witness :
  (In "a"%string demo_servers
   /\ successes_of "a"
        (outcomes (fun k s => demo_query k s 2) 0 (schedule demo_servers (Z.to_nat 2)))
      <> [] ->
   exists out,
     Core.rank_servers demo_stats "a" (2 # 10) (5 # 10) (Some 100%Q) true = Ok out)
  /\ (~ (In "b"%string demo_servers
         /\ successes_of "b"
              (outcomes (fun k s => demo_query k s 2) 0
                 (schedule demo_servers (Z.to_nat 2))) <> []) ->
      Core.rank_servers demo_stats "b" (2 # 10) (5 # 10) (Some 100%Q) true
      = Raise RuntimeError).
Proof.
  split.
  - apply (ranking_needs_baseline_success sqrt_micro demo_query demo_servers 2 2
             (1 # 2) demo_stats "a" (2 # 10) (5 # 10) (Some 100%Q) true).
    + vm_compute. reflexivity.
    + exact default_ranking_valid.
  - apply (ranking_needs_baseline_success sqrt_micro demo_query demo_servers 2 2
             (1 # 2) demo_stats "b" (2 # 10) (5 # 10) (Some 100%Q) true).
    + vm_compute. reflexivity.
    + exact default_ranking_valid.
Defined.

(* ===================================================================== *)
(** ** examples/quickstart.py *)
(* ===================================================================== *)

(** examples/quickstart.py reads [kntp.format_ranked_table], a name that the
    package does not bind: kntp/__init__.py imports eleven names from
    [.core], and [format_ranked_table] is not one of them.  So the script
    prints nothing, on any run: it ends in the first exception that
    [collect_stats] does not catch, when there is one; in [RuntimeError],
    from [rank_servers], when the default baseline has not answered once in
    the five rounds; and in [AttributeError], at its first [print], in
    every other case. *)
Theorem quickstart_never_prints (fixed2 : Q -> string) (sqrt : Q -> Q)
    (query : nat -> string -> Q -> result Sample) :
  let tr := outcomes (fun k s => query k s 2%Q) 0 (schedule DEFAULT_SERVERS 5) in
  quickstart fixed2 sqrt query
  = Raise match first_uncaught Core.catches tr with
          | Some e => e
          | None =>
              if has_success tr DEFAULT_BASE then AttributeError
              else RuntimeError
          end.
Proof.
  intros tr. unfold quickstart.
  change (kntp_attr "collect_stats" (Core.collect_stats_with sqrt query))
    with (Ok (Core.collect_stats_with sqrt query)).
  change (kntp_attr "DEFAULT_SERVERS" DEFAULT_SERVERS) with (Ok DEFAULT_SERVERS).
  cbn [bind]. rewrite core_collect_stats_unfold.
  change ((5 <? 1) || Qleb 2 0 || Qltb (3 # 10) 0) with false.
  change (Z.to_nat 5) with 5%nat. cbv iota. fold tr.
  destruct (first_uncaught Core.catches tr) as [e|]; [reflexivity|].
  cbn [bind].
  change (kntp_attr "rank_servers" Core.rank_servers) with (Ok Core.rank_servers).
  change (kntp_attr "DEFAULT_BASE" DEFAULT_BASE) with (Ok DEFAULT_BASE).
  cbn [bind]. rewrite core_rank_checks by exact default_ranking_valid.
  unfold rank_from.
  assert (Hiff : In DEFAULT_BASE
                   (map server (expected_stats sqrt Core.catches DEFAULT_SERVERS tr))
                 <-> has_success tr DEFAULT_BASE = true).
  { rewrite expected_stats_servers, filter_In. split; [now intros [_ H]|].
    intros H. split; [left; reflexivity|exact H]. }
  destruct (has_success tr DEFAULT_BASE).
  - destruct (find_base_exists _ _ (proj2 (exists_server_iff _ _) (proj2 Hiff eq_refl)))
      as (b & -> & _).
    cbn [bind].
    change (kntp_attr "recommend" Core.recommend) with (Ok Core.recommend).
    cbn [bind]. unfold Core.recommend.
    change (Qleb 0 (8 # 10) && Qleb (8 # 10) 1) with true. cbv iota. cbn [bind].
    reflexivity.
  - rewrite find_base_absent; [reflexivity|].
    apply not_exists_forall. intros Hin. apply Hiff in Hin. discriminate Hin.
Qed.

